(** * Zoom webinar setting updater: a shallow embedding of [app.py]

    The script reads a YAML file of accounts, and for the operation named
    on the command line sends one HTTP PATCH per webinar id of every
    account, printing a progress line and the status code and sleeping five
    seconds after each request.

    Python values are embedded as the inductive [pyval]; exceptions are the
    [Raise] branch of [result]; console output, HTTP requests and sleeps are
    events appended to a trace that is threaded through the monad [M].  What
    the script takes from outside (the YAML loader, the interpreter's [repr]
    of containers and floats, the HTTP server, the file system) is gathered
    in the record [environment]. *)

From Stdlib Require Import String Ascii ZArith List Bool DecimalString.
Import ListNotations.
Local Open Scope string_scope.
Local Open Scope Z_scope.
Set Warnings "-register-all".

(** ** Python values *)

(** The objects the script's literals are made of and a safe YAML load of
    a JSON-like document yields (timestamps, binary data and sets, which a
    safe load can also yield, are left out).  A float is carried by its
    [repr], which is all the script could ever observe of it.  A [str] is
    a [string], one [ascii] per character.  A [dict] is the list of its
    items in insertion order; its keys are
    pairwise distinct in every dict of the program (the literals have
    distinct keys, and the safe loader rejects a duplicate key). *)
Inductive pyval : Type :=
| PNone
| PBool (b : bool)
| PInt (z : Z)
| PFloat (repr : string)
| PStr (s : string)
| PList (items : list pyval)
| PDict (items : list (pyval * pyval)).

(** Exceptions, by class.  [SystemExit] is what [sys.exit] raises. *)
Inductive exn : Type :=
| TypeError
| KeyError (key : pyval)
| YAMLError (msg : string)
| RequestException (msg : string)
| IsADirectoryError
| FileNotFoundError
| SystemExit (code : Z).

(** The name of the class of an exception. *)
Definition exn_class (e : exn) : string :=
  match e with
  | TypeError => "TypeError"
  | KeyError _ => "KeyError"
  | YAMLError _ => "YAMLError"
  | RequestException _ => "RequestException"
  | IsADirectoryError => "IsADirectoryError"
  | FileNotFoundError => "FileNotFoundError"
  | SystemExit _ => "SystemExit"
  end.

Inductive result (A : Type) : Type :=
| Ok (a : A)
| Raise (e : exn).
Arguments Ok {A} a.
Arguments Raise {A} e.

Definition rbind {A B} (r : result A) (k : A -> result B) : result B :=
  match r with
  | Ok a => k a
  | Raise e => Raise e
  end.

(** [str(z)] for an [int]. *)
Definition str_of_Z (z : Z) : string := NilZero.string_of_int (Z.to_int z).

(** [k == key] for a [str] k: only an equal [str] compares equal. *)
Definition key_is (k : string) (key : pyval) : bool :=
  match key with
  | PStr s => String.eqb s k
  | _ => false
  end.

Fixpoint dict_get (d : list (pyval * pyval)) (k : string) : option pyval :=
  match d with
  | [] => None
  | (key, v) :: rest => if key_is k key then Some v else dict_get rest k
  end.

(** [v[k]] for a [str] k.  Only a dict can be subscripted by a string:
    a list or a string wants an integer index, the other objects are not
    subscriptable; all of these are a [TypeError]. *)
Definition py_getitem (v : pyval) (k : string) : result pyval :=
  match v with
  | PDict d =>
      match dict_get d k with
      | Some x => Ok x
      | None => Raise (KeyError (PStr k))
      end
  | _ => Raise TypeError
  end.

(** What [for x in v] visits: the elements of a list, the keys of a dict,
    the characters of a string; the other objects are not iterable. *)
Definition py_iter (v : pyval) : result (list pyval) :=
  match v with
  | PList l => Ok l
  | PDict d => Ok (map fst d)
  | PStr s => Ok (map (fun c => PStr (String c EmptyString)) (list_ascii_of_string s))
  | _ => Raise TypeError
  end.

(** ** The world outside the script *)

Record request : Type := mkRequest {
  req_url : string;
  req_json : pyval;
  req_headers : pyval
}.

Inductive event : Type :=
| Stdout (text : string)
| Patch (r : request)
| Sleep (seconds : Z).

Definition trace := list event.

(** The answer to a request: a response, of which the script reads the
    status code only, or an exception raised by [requests.patch]. *)
Inductive reply : Type :=
| Response (status_code : Z)
| Failure (e : exn).

Inductive node : Type :=
| File (content : string)
| Directory.

Record environment : Type := mkEnvironment {
  (** [YAML(typ="safe").load] *)
  yaml_load : string -> result pyval;
  (** [str] of a list or dict *)
  py_repr : pyval -> string;
  (** the server, which has seen the events so far *)
  http : trace -> request -> reply;
  (** the file system, by path *)
  fs : string -> option node
}.

(** ** The Account class *)

Record Account : Type := mkAccount {
  token : pyval;
  webinar_ids : pyval
}.

(** ** Effects *)

(** A computation runs on the trace so far and returns its result with
    the trace extended by its own events.  An exception ends the
    computation: nothing in the script catches one. *)
Definition M (A : Type) : Type := trace -> result A * trace.

Definition ret {A} (a : A) : M A := fun tr => (Ok a, tr).

Definition bind {A B} (m : M A) (k : A -> M B) : M B :=
  fun tr =>
    match m tr with
    | (Ok a, tr') => k a tr'
    | (Raise e, tr') => (Raise e, tr')
    end.

Definition raise {A} (e : exn) : M A := fun tr => (Raise e, tr).

Definition lift {A} (r : result A) : M A := fun tr => (r, tr).

Definition emit (e : event) : M unit := fun tr => (Ok tt, (tr ++ [e])%list).

Declare Scope py_scope.
Delimit Scope py_scope with py.
Notation "x <- m ;; k" := (bind m (fun x => k))
  (at level 61, m at next level, right associativity) : py_scope.
Notation "m ;; k" := (bind m (fun _ => k))
  (at level 61, right associativity) : py_scope.

Definition nl : string := String (ascii_of_nat 10) EmptyString.

(** [print(s, end=e)]; [e] is a newline when [print] is given no [end]. *)
Definition print (s : string) (e : string) : M unit := emit (Stdout (s ++ e)).

Definition sleep (seconds : Z) : M unit := emit (Sleep seconds).

Definition sys_exit {A} (code : Z) : M A := raise (SystemExit code).

Fixpoint for_each {A} (body : A -> M unit) (l : list A) : M unit :=
  match l with
  | [] => ret tt
  | x :: rest => (body x ;; for_each body rest)%py
  end.

(** [template.format(wid=w)] for a template whose only braces are the
    field [{wid}]; [w] is the field's value already turned into a string. *)
Fixpoint format_wid (template : string) (w : string) : string :=
  match template with
  | String "{" (String "w" (String "i" (String "d" (String "}" rest)))) =>
      w ++ format_wid rest w
  | String c rest => String c (format_wid rest w)
  | EmptyString => EmptyString
  end.

(** [template.format(x)] for a template whose only braces are one field
    [{}]. *)
Fixpoint format_pos (template : string) (x : string) : string :=
  match template with
  | String "{" (String "}" rest) => x ++ format_pos rest x
  | String c rest => String c (format_pos rest x)
  | EmptyString => EmptyString
  end.

Definition ZOOM_API_BASE_URL : string := "https://api.zoom.us/v2".

Section Script.

Variable env : environment.

(** [str(v)], which is what an f-string field and [str.format] put in for
    [v], and what [print] writes. *)
Definition py_str (v : pyval) : string :=
  match v with
  | PNone => "None"
  | PBool true => "True"
  | PBool false => "False"
  | PInt z => str_of_Z z
  | PFloat r => r
  | PStr s => s
  | PList _ | PDict _ => py_repr env v
  end.

(** The [headers] property. *)
Definition headers (self : Account) : pyval :=
  PDict [ (PStr "authorization", PStr ("Bearer " ++ py_str (token self)));
          (PStr "content-type", PStr "application/json") ].

(** The loop of [from_yaml_text]: [accounts] is the list built so far. *)
Fixpoint from_yaml_loop (res : list pyval) (accounts : list Account)
  : result (list Account) :=
  match res with
  | [] => Ok accounts
  | acc :: rest =>
      rbind (py_getitem acc "token") (fun tok =>
      rbind (py_getitem acc "webinar-ids") (fun wids =>
      from_yaml_loop rest (accounts ++ [mkAccount tok wids])%list))
  end.

Definition from_yaml_text (content : string) : result (list Account) :=
  rbind (yaml_load env content) (fun res =>
  rbind (py_iter res) (fun items =>
  from_yaml_loop items [])).

(** [requests.patch(url, json=json, headers=headers)], returning the
    response's [status_code].  The call is recorded whatever its outcome. *)
Definition requests_patch (url : string) (json hdrs : pyval) : M Z :=
  fun tr =>
    let r := mkRequest url json hdrs in
    match http env tr r with
    | Response code => (Ok code, (tr ++ [Patch r])%list)
    | Failure e => (Raise e, (tr ++ [Patch r])%list)
    end.

Definition update_cots2021_registration_questions (account : Account) : M unit :=
  let payload :=
    PDict [
      (PStr "questions", PList [
         PDict [ (PStr "field_name", PStr "last_name"); (PStr "required", PBool true) ];
         PDict [ (PStr "field_name", PStr "org"); (PStr "required", PBool true) ];
         PDict [ (PStr "field_name", PStr "job_title"); (PStr "required", PBool true) ] ]);
      (PStr "custom_questions", PList [
         PDict [ (PStr "title", PStr "Where do you learn about COTS 2021?");
                 (PStr "type", PStr "multiple");
                 (PStr "required", PBool true);
                 (PStr "answers", PList [
                    PStr "Facebook"; PStr "Instagram"; PStr "Twitter"; PStr "Email";
                    PStr "Newsletters"; PStr "Friends"; PStr "Other" ]) ] ]) ] in
  (wids <- lift (py_iter (webinar_ids account)) ;;
   for_each (fun wid =>
     print ("Updating registration questions for " ++ py_str wid ++ " ...") " " ;;
     res <- requests_patch
              (ZOOM_API_BASE_URL
               ++ format_wid "/webinars/{wid}/registrants/questions" (py_str wid))
              payload (headers account) ;;
     print (str_of_Z res) nl ;;
     sleep 5) wids)%py.

Definition update_cots20201_email_settings (account : Account) : M unit :=
  let payload :=
    PDict [
      (PStr "settings", PDict [
         (PStr "attendees_and_panelists_reminder_email_notification", PDict [
            (PStr "enable", PBool true);
            (PStr "type", PInt 7) ]) ]) ] in
  (wids <- lift (py_iter (webinar_ids account)) ;;
   for_each (fun wid =>
     print ("Update email settings for " ++ py_str wid ++ " ...") " " ;;
     res <- requests_patch
              (ZOOM_API_BASE_URL ++ format_wid "/webinars/{wid}" (py_str wid))
              payload (headers account) ;;
     print (str_of_Z res) nl ;;
     sleep 5) wids)%py.

Definition update_qa (account : Account) : M unit :=
  let payload :=
    PDict [
      (PStr "settings", PDict [
         (PStr "question_and_answer", PDict [
            (PStr "enable", PBool true);
            (PStr "allow_anonymous_questions", PBool false);
            (PStr "answer_questions", PStr "all");
            (PStr "attendees_can_upvote", PBool true);
            (PStr "attendees_can_comment", PBool true) ]) ]) ] in
  (wids <- lift (py_iter (webinar_ids account)) ;;
   for_each (fun wid =>
     print ("Update q&a settings for " ++ py_str wid ++ " ...") " " ;;
     res <- requests_patch
              (ZOOM_API_BASE_URL ++ format_wid "/webinars/{wid}" (py_str wid))
              payload (headers account) ;;
     print (str_of_Z res) nl ;;
     sleep 5) wids)%py.

Definition create_poll (account : Account) : M unit :=
  let payload :=
    PDict [
      (PStr "title", PStr "Where are you attending this panel from?");
      (PStr "anonymous", PBool false);
      (PStr "poll_type", PInt 1);
      (PStr "questions", PList [
         PDict [ (PStr "name", PStr EmptyString);
                 (PStr "type", PStr "single");
                 (PStr "answers", PList [ PStr "A"; PStr "B" ]) ] ]) ] in
  (wids <- lift (py_iter (webinar_ids account)) ;;
   for_each (fun wid =>
     print ("Update email settings for " ++ py_str wid ++ " ...") " " ;;
     res <- requests_patch
              (ZOOM_API_BASE_URL ++ format_wid "/webinars/{wid}/polls" (py_str wid))
              payload (headers account) ;;
     print (str_of_Z res) nl ;;
     sleep 5) wids)%py.

(** ** The command line *)

(** What [parser.parse_args()] returns. *)
Record Namespace : Type := mkNamespace {
  op : string;
  config : string
}.

Definition choices : list string :=
  [ "update-registration-question"; "update-email-setting"; "create-poll";
    "update-qa-setting" ].

(** The parser, given the positional argument and the value of [--config]
    when the option is present.  An operation outside [choices] makes
    argparse report a usage error on standard error (not in the trace) and
    exit with status 2. *)
Definition parse_args (argv_op : string) (argv_config : option string)
  : M Namespace :=
  if existsb (String.eqb argv_op) choices
  then ret (mkNamespace argv_op
              match argv_config with
              | Some path => path
              | None => "./config.yaml"
              end)
  else sys_exit 2.

(** [Path.exists] *)
Definition path_exists (path : string) : bool :=
  match fs env path with
  | Some _ => true
  | None => false
  end.

(** [open(path, "r")] followed by [f.read()] *)
Definition read_text (path : string) : M string :=
  match fs env path with
  | Some (File content) => ret content
  | Some Directory => raise IsADirectoryError
  | None => raise FileNotFoundError
  end.

Definition main (argv_op : string) (argv_config : option string) : M unit :=
  (args <- parse_args argv_op argv_config ;;
   let config_path := config args in
   (if negb (path_exists config_path)
    then
      print "[error] Cannot find a configuration file. We expected it to be at ./config.yaml" nl ;;
      sys_exit 1
    else ret tt) ;;
   content <- read_text config_path ;;
   accounts <- lift (from_yaml_text content) ;;
   print (format_pos "Found {} account(s)" (str_of_Z (Z.of_nat (length accounts)))) nl ;;
   if op args =? "update-registration-question" then
     print "Updating registration questions" nl ;;
     for_each update_cots2021_registration_questions accounts
   else if op args =? "update-email-setting" then
     print "Updating email setting" nl ;;
     for_each update_cots20201_email_settings accounts
   else if op args =? "create-poll" then
     print "Creating poll" nl ;;
     for_each (fun acc => ret tt) accounts
   else if op args =? "update-qa-setting" then
     print "Updating Q&A setting" nl ;;
     for_each update_qa accounts
   else ret tt)%py%string.

End Script.

(** ** Observations on a run *)

(** The requests of a trace, in the order they were made. *)
Fixpoint requests_of (tr : trace) : list request :=
  match tr with
  | [] => []
  | Patch r :: rest => r :: requests_of rest
  | _ :: rest => requests_of rest
  end.

(** What a trace wrote to standard output. *)
Fixpoint stdout_of (tr : trace) : string :=
  match tr with
  | [] => EmptyString
  | Stdout text :: rest => text ++ stdout_of rest
  | _ :: rest => stdout_of rest
  end.

(** The status the process exits with: 0 when the script runs to its end,
    the argument of [sys.exit], 1 for any other uncaught exception. *)
Definition exit_status {A} (r : result A) : Z :=
  match r with
  | Ok _ => 0
  | Raise (SystemExit code) => code
  | Raise _ => 1
  end.

(** ** The shape the four operation functions share *)

(** The request an operation makes for one webinar id. *)
Definition planned (env : environment) (template : string) (payload : pyval)
  (account : Account) (wid : pyval) : request :=
  mkRequest (ZOOM_API_BASE_URL ++ format_wid template (py_str env wid))
            payload (headers env account).

(** One turn of the loop: progress line, request, status line, sleep. *)
Definition patch_step (env : environment) (label template : string)
  (payload : pyval) (account : Account) (wid : pyval) : M unit :=
  (print (label ++ py_str env wid ++ " ...") " " ;;
   res <- requests_patch env
            (ZOOM_API_BASE_URL ++ format_wid template (py_str env wid))
            payload (headers env account) ;;
   print (str_of_Z res) nl ;;
   sleep 5)%py.

Definition patch_loop (env : environment) (label template : string)
  (payload : pyval) (account : Account) : M unit :=
  (wids <- lift (py_iter (webinar_ids account)) ;;
   for_each (patch_step env label template payload account) wids)%py.

(** The events of a turn whose request was answered with [code]. *)
Definition turn (env : environment) (label template : string)
  (payload : pyval) (account : Account) (wid : pyval) (code : Z) : trace :=
  [ Stdout ((label ++ py_str env wid ++ " ...") ++ " ");
    Patch (planned env template payload account wid);
    Stdout (str_of_Z code ++ nl);
    Sleep 5 ].

(** The operation functions by name, and the path of each for a webinar
    id, as the table of operations gives it. *)
Inductive operation : Type :=
| UpdateRegistrationQuestion
| UpdateEmailSetting
| UpdateQaSetting
| CreatePoll.

Definition operation_function (env : environment) (o : operation)
  : Account -> M unit :=
  match o with
  | UpdateRegistrationQuestion => update_cots2021_registration_questions env
  | UpdateEmailSetting => update_cots20201_email_settings env
  | UpdateQaSetting => update_qa env
  | CreatePoll => create_poll env
  end.

Definition path_of (o : operation) (id : string) : string :=
  match o with
  | UpdateRegistrationQuestion => "/webinars/" ++ id ++ "/registrants/questions"
  | UpdateEmailSetting => "/webinars/" ++ id
  | UpdateQaSetting => "/webinars/" ++ id
  | CreatePoll => "/webinars/" ++ id ++ "/polls"
  end.

Definition url_of (env : environment) (o : operation) (wid : pyval) : string :=
  "https://api.zoom.us/v2" ++ path_of o (py_str env wid).

(** Where a request goes and what headers it carries. *)
Definition addressed (r : request) : string * pyval :=
  (req_url r, req_headers r).

(** ** Shapes of a loaded configuration *)

(** A record the loop of [from_yaml_text] gets through: a mapping that has
    both keys. *)
Definition record_ok (r : pyval) : bool :=
  match py_getitem r "token", py_getitem r "webinar-ids" with
  | Ok _, Ok _ => true
  | _, _ => false
  end.

(** The Account holds the field values of the record. *)
Definition made_from (r : pyval) (a : Account) : Prop :=
  py_getitem r "token" = Ok (token a)
  /\ py_getitem r "webinar-ids" = Ok (webinar_ids a).

(** The text loads, the loaded value can be iterated, and every item
    visited is a mapping with both keys. *)
Definition loads_records (env : environment) (content : string) : bool :=
  match yaml_load env content with
  | Ok v =>
      match py_iter v with
      | Ok items => forallb record_ok items
      | Raise _ => false
      end
  | Raise _ => false
  end.

(** The configuration format in the specification's words: a sequence of
    mappings, each with a string [token] and a sequence of strings
    [webinar-ids]. *)
Definition spec_is_str (v : pyval) : bool :=
  match v with
  | PStr _ => true
  | _ => false
  end.

Definition spec_account_record (r : pyval) : bool :=
  match r with
  | PDict d =>
      match dict_get d "token", dict_get d "webinar-ids" with
      | Some (PStr _), Some (PList ids) => forallb spec_is_str ids
      | _, _ => false
      end
  | _ => false
  end.

Definition spec_expected_structure (v : pyval) : bool :=
  match v with
  | PList records => forallb spec_account_record records
  | _ => false
  end.

(** ** A test bench *)

(** A loader that knows the documents of a table and rejects every other
    text, a server that answers every request with the same status, and a
    file system with one configuration file. *)
Definition table_load (docs : list (string * pyval)) (content : string)
  : result pyval :=
  match find (fun d => String.eqb (fst d) content) docs with
  | Some d => Ok (snd d)
  | None => Raise (YAMLError "could not parse")
  end.

Definition two_accounts_text : string :=
  "[{token: aaa, webinar-ids: ['111', '222']}, {token: bbb, webinar-ids: ['333']}]".

Definition two_accounts_doc : pyval :=
  PList [
    PDict [ (PStr "token", PStr "aaa");
            (PStr "webinar-ids", PList [ PStr "111"; PStr "222" ]) ];
    PDict [ (PStr "token", PStr "bbb");
            (PStr "webinar-ids", PList [ PStr "333" ]) ] ].

Definition bench_docs : list (string * pyval) :=
  [ (two_accounts_text, two_accounts_doc);
    (EmptyString, PNone);
    ("{}", PDict []);
    ("- token: aaa", PList [ PDict [ (PStr "token", PStr "aaa") ] ]) ].

Definition bench_fs (path : string) : option node :=
  if String.eqb path "./config.yaml" then Some (File two_accounts_text)
  else if String.eqb path "empty.yaml" then Some (File EmptyString)
  else if String.eqb path "/tmp" then Some Directory
  else None.

Definition bench (status : Z) : environment :=
  mkEnvironment (table_load bench_docs) (fun _ => "<repr>")
                (fun _ _ => Response status) bench_fs.

(** A server that is down: every request raises. *)
Definition bench_offline : environment :=
  mkEnvironment (table_load bench_docs) (fun _ => "<repr>")
                (fun _ _ => Failure (RequestException "connection refused"))
                bench_fs.

(** ** The operations side by side *)

(** What sets the four functions apart, read off their bodies: the start
    of the progress line, the path template and the payload.  The poll
    function's progress line is the one of the email function. *)
Definition label_of (o : operation) : string :=
  match o with
  | UpdateRegistrationQuestion => "Updating registration questions for "
  | UpdateEmailSetting => "Update email settings for "
  | UpdateQaSetting => "Update q&a settings for "
  | CreatePoll => "Update email settings for "
  end.

Definition template_of (o : operation) : string :=
  match o with
  | UpdateRegistrationQuestion => "/webinars/{wid}/registrants/questions"
  | UpdateEmailSetting => "/webinars/{wid}"
  | UpdateQaSetting => "/webinars/{wid}"
  | CreatePoll => "/webinars/{wid}/polls"
  end.

Definition payload_of (o : operation) : pyval :=
  match o with
  | UpdateRegistrationQuestion =>
      PDict [
        (PStr "questions", PList [
           PDict [ (PStr "field_name", PStr "last_name"); (PStr "required", PBool true) ];
           PDict [ (PStr "field_name", PStr "org"); (PStr "required", PBool true) ];
           PDict [ (PStr "field_name", PStr "job_title"); (PStr "required", PBool true) ] ]);
        (PStr "custom_questions", PList [
           PDict [ (PStr "title", PStr "Where do you learn about COTS 2021?");
                   (PStr "type", PStr "multiple");
                   (PStr "required", PBool true);
                   (PStr "answers", PList [
                      PStr "Facebook"; PStr "Instagram"; PStr "Twitter"; PStr "Email";
                      PStr "Newsletters"; PStr "Friends"; PStr "Other" ]) ] ]) ]
  | UpdateEmailSetting =>
      PDict [
        (PStr "settings", PDict [
           (PStr "attendees_and_panelists_reminder_email_notification", PDict [
              (PStr "enable", PBool true);
              (PStr "type", PInt 7) ]) ]) ]
  | UpdateQaSetting =>
      PDict [
        (PStr "settings", PDict [
           (PStr "question_and_answer", PDict [
              (PStr "enable", PBool true);
              (PStr "allow_anonymous_questions", PBool false);
              (PStr "answer_questions", PStr "all");
              (PStr "attendees_can_upvote", PBool true);
              (PStr "attendees_can_comment", PBool true) ]) ]) ]
  | CreatePoll =>
      PDict [
        (PStr "title", PStr "Where are you attending this panel from?");
        (PStr "anonymous", PBool false);
        (PStr "poll_type", PInt 1);
        (PStr "questions", PList [
           PDict [ (PStr "name", PStr EmptyString);
                   (PStr "type", PStr "single");
                   (PStr "answers", PList [ PStr "A"; PStr "B" ]) ] ]) ]
  end.

(** The request of an operation for one webinar id of an account. *)
Definition request_of (env : environment) (o : operation) (account : Account)
  (wid : pyval) : request :=
  mkRequest (url_of env o wid) (payload_of o) (headers env account).

(** The progress line of an operation for one webinar id. *)
Definition progress_of (env : environment) (o : operation) (wid : pyval) : string :=
  (label_of o ++ py_str env wid ++ " ...") ++ " ".

(** The events of one answered turn of an operation's loop. *)
Definition turn_of (env : environment) (o : operation) (account : Account)
  (wid : pyval) (code : Z) : trace :=
  [ Stdout (progress_of env o wid);
    Patch (request_of env o account wid);
    Stdout (str_of_Z code ++ nl);
    Sleep 5 ].

(** The name of an operation on the command line and the heading the
    dispatcher prints for it. *)
Definition name_of (o : operation) : string :=
  match o with
  | UpdateRegistrationQuestion => "update-registration-question"
  | UpdateEmailSetting => "update-email-setting"
  | UpdateQaSetting => "update-qa-setting"
  | CreatePoll => "create-poll"
  end.

Definition heading_of (o : operation) : string :=
  match o with
  | UpdateRegistrationQuestion => "Updating registration questions"
  | UpdateEmailSetting => "Updating email setting"
  | UpdateQaSetting => "Updating Q&A setting"
  | CreatePoll => "Creating poll"
  end.

(** What the dispatcher does to each account for an operation: the
    operation's function, but nothing at all for the poll. *)
Definition dispatched (env : environment) (o : operation) : Account -> M unit :=
  match o with
  | CreatePoll => fun _ => ret tt
  | _ => operation_function env o
  end.

(** The seconds a trace spent asleep. *)
Fixpoint slept (tr : trace) : Z :=
  match tr with
  | [] => 0
  | Sleep seconds :: rest => seconds + slept rest
  | _ :: rest => slept rest
  end.

(** An event every run keeps to: a request goes below the webinars of the
    API's base URL and carries a bearer authorization and the JSON content
    type, a sleep lasts five seconds. *)
Definition kept_event (e : event) : Prop :=
  match e with
  | Stdout _ => True
  | Patch r =>
      String.prefix "https://api.zoom.us/v2/webinars/" (req_url r) = true
      /\ exists bearer,
           req_headers r
           = PDict [ (PStr "authorization", PStr ("Bearer " ++ bearer));
                     (PStr "content-type", PStr "application/json") ]
  | Sleep seconds => seconds = 5
  end.

(** Why a record stops the loop of [from_yaml_text], with the exception:
    it is no mapping, or it is a mapping without [token], or one with
    [token] and without [webinar-ids]. *)
Inductive offends : pyval -> exn -> Prop :=
| offends_no_mapping (r : pyval) :
    (forall d, r <> PDict d) -> offends r TypeError
| offends_no_token (d : list (pyval * pyval)) :
    dict_get d "token" = None -> offends (PDict d) (KeyError (PStr "token"))
| offends_no_ids (d : list (pyval * pyval)) (tok : pyval) :
    dict_get d "token" = Some tok ->
    dict_get d "webinar-ids" = None ->
    offends (PDict d) (KeyError (PStr "webinar-ids")).

(** The webinar ids the loop of an operation visits for an account; none
    when [webinar_ids] cannot be iterated. *)
Definition ids_of (a : Account) : list pyval :=
  match py_iter (webinar_ids a) with
  | Ok ws => ws
  | Raise _ => []
  end.

(** The path of the configuration: the value of [--config], or the
    parser's default. *)
Definition resolved (argv_config : option string) : string :=
  match argv_config with
  | Some path => path
  | None => "./config.yaml"
  end.

(** The two lines a run prints once the configuration is loaded: the
    number of accounts and the heading of the operation. *)
Definition preamble (o : operation) (accounts : list Account) : trace :=
  [ Stdout (("Found " ++ str_of_Z (Z.of_nat (length accounts)) ++ " account(s)") ++ nl);
    Stdout (heading_of o ++ nl) ].

(** Whether a trace leaves five seconds between its requests: every
    request but the first comes after a sleep of five seconds that is later
    than the request before it.  [rested] tells whether the trace starts
    rested; [rested_after] tells whether it ends so. *)
Fixpoint spaced_from (rested : bool) (tr : trace) : bool :=
  match tr with
  | [] => true
  | Patch _ :: rest => rested && spaced_from false rest
  | Sleep seconds :: rest => spaced_from (rested || (seconds =? 5)) rest
  | Stdout _ :: rest => spaced_from rested rest
  end.

Fixpoint rested_after (rested : bool) (tr : trace) : bool :=
  match tr with
  | [] => rested
  | Patch _ :: rest => rested_after false rest
  | Sleep seconds :: rest => rested_after (rested || (seconds =? 5)) rest
  | Stdout _ :: rest => rested_after rested rest
  end.

(** The record a dump of an Account would write. *)
Definition record_of (a : Account) : pyval :=
  PDict [ (PStr "token", token a); (PStr "webinar-ids", webinar_ids a) ].

(** ** A second test bench *)

(** More documents: three records the second of which has no token, and
    one account mapping that is not inside a sequence.  And a server that
    answers every request but the one for webinar 222. *)
Definition three_records_text : string :=
  "[{token: aaa, webinar-ids: ['111']}, {webinar-ids: ['222']}, {token: ccc}]".

Definition three_records_doc : pyval :=
  PList [
    PDict [ (PStr "token", PStr "aaa"); (PStr "webinar-ids", PList [ PStr "111" ]) ];
    PDict [ (PStr "webinar-ids", PList [ PStr "222" ]) ];
    PDict [ (PStr "token", PStr "ccc") ] ].

Definition more_docs : list (string * pyval) :=
  [ (three_records_text, three_records_doc);
    ("{token: aaa, webinar-ids: ['111']}",
     PDict [ (PStr "token", PStr "aaa"); (PStr "webinar-ids", PList [ PStr "111" ]) ]) ].

Definition bench_more : environment :=
  mkEnvironment (table_load more_docs) (fun _ => "<repr>")
                (fun _ _ => Response 204) bench_fs.

Definition bench_flaky : environment :=
  mkEnvironment (table_load bench_docs) (fun _ => "<repr>")
                (fun _ r =>
                   if String.eqb (req_url r) "https://api.zoom.us/v2/webinars/222"
                   then Failure (RequestException "timed out")
                   else Response 204)
                bench_fs.

(** A server that knows webinar 111 and none of the others: 204 for a
    request below its URL, 404 for every other request. *)
Definition bench_mixed : environment :=
  mkEnvironment (table_load bench_docs) (fun _ => "<repr>")
                (fun _ r =>
                   if String.prefix "https://api.zoom.us/v2/webinars/111" (req_url r)
                   then Response 204
                   else Response 404)
                bench_fs.

(** * Properties *)

(** ** The Account model *)

(** C6: an Account constructed with the token T answers every access of
    [headers] with the mapping of [authorization] to [Bearer T] and of
    [content-type] to [application/json], whatever its webinar ids are and
    whatever the surroundings. *)
Theorem headers_bearer (env : environment) (T : string) (ids : pyval) :
  headers env (mkAccount (PStr T) ids)
  = PDict [ (PStr "authorization", PStr ("Bearer " ++ T));
            (PStr "content-type", PStr "application/json") ].
Proof. reflexivity. Qed.

(** ** The configuration loader *)

Lemma record_ok_fields (r : pyval) :
  record_ok r = true ->
  exists tok wids,
    py_getitem r "token" = Ok tok /\ py_getitem r "webinar-ids" = Ok wids.
Proof.
  unfold record_ok.
  destruct (py_getitem r "token") as [tok|]; [|discriminate].
  destruct (py_getitem r "webinar-ids") as [wids|]; [|discriminate].
  intros _. exists tok, wids. split; reflexivity.
Qed.

Lemma from_yaml_loop_ok (records : list pyval) :
  forallb record_ok records = true ->
  forall done,
  exists made,
    from_yaml_loop records done = Ok (done ++ made)%list
    /\ Forall2 made_from records made.
Proof.
  induction records as [|r records IH]; intros Hok done; simpl in *.
  - exists []. rewrite app_nil_r. split; [reflexivity | constructor].
  - apply andb_prop in Hok. destruct Hok as [Hr Hrest].
    destruct (record_ok_fields r Hr) as (tok & wids & Htok & Hwids).
    rewrite Htok, Hwids. simpl.
    destruct (IH Hrest (done ++ [mkAccount tok wids])%list) as (made & Hrun & Hmade).
    exists (mkAccount tok wids :: made). split.
    + rewrite Hrun, <- app_assoc. reflexivity.
    + constructor; [split; assumption | assumption].
Qed.

(** C5: when the text loads to a sequence of N records, each a mapping
    with a [token] and a [webinar-ids] field, [from_yaml_text] returns N
    Accounts, and the i-th Account holds the token and the webinar ids of
    the i-th record. *)
Theorem from_yaml_text_records (env : environment) (content : string)
  (records : list pyval) :
  yaml_load env content = Ok (PList records) ->
  forallb record_ok records = true ->
  exists accounts,
    from_yaml_text env content = Ok accounts
    /\ length accounts = length records
    /\ Forall2 made_from records accounts.
Proof.
  intros Hload Hok. unfold from_yaml_text. rewrite Hload. simpl.
  destruct (from_yaml_loop_ok records Hok []) as (made & Hrun & Hmade).
  exists made. simpl in Hrun. split; [assumption|]. split; [|assumption].
  symmetry. eapply Forall2_length. eassumption.
Qed.

(** C10: a text that loads to YAML null is not taken as zero accounts:
    the loop over the loaded value raises. *)
Theorem from_yaml_text_null (env : environment) (content : string) :
  yaml_load env content = Ok PNone ->
  from_yaml_text env content = Raise TypeError
  /\ from_yaml_text env content <> Ok [].
Proof.
  intros Hload. unfold from_yaml_text. rewrite Hload. simpl.
  split; [reflexivity | discriminate].
Qed.

Lemma offends_not_ok (r : pyval) (e : exn) :
  offends r e ->
  rbind (py_getitem r "token") (fun tok =>
    rbind (py_getitem r "webinar-ids") (fun wids => Ok (tok, wids)))
  = Raise e.
Proof.
  intros [r' Hno | d Htok | d tok Htok Hids].
  - destruct r'; try reflexivity. exfalso. eapply Hno. reflexivity.
  - simpl. rewrite Htok. reflexivity.
  - simpl. rewrite Htok. simpl. rewrite Hids. reflexivity.
Qed.

Lemma from_yaml_loop_offender (pre : list pyval) (r : pyval) (post : list pyval)
  (e : exn) :
  forallb record_ok pre = true ->
  offends r e ->
  forall done, from_yaml_loop (pre ++ r :: post) done = Raise e.
Proof.
  intros Hpre Hoff. induction pre as [|p pre IH]; intros done; simpl in *.
  - pose proof (offends_not_ok r e Hoff) as Hr.
    destruct (py_getitem r "token") as [tok|e1]; simpl in *.
    + destruct (py_getitem r "webinar-ids") as [wids|e2]; simpl in *;
        congruence.
    + congruence.
  - apply andb_prop in Hpre. destruct Hpre as [Hp Hpre].
    destruct (record_ok_fields p Hp) as (tok & wids & Htok & Hwids).
    rewrite Htok, Hwids. simpl. apply IH. assumption.
Qed.

Lemma record_not_ok_offends (r : pyval) :
  record_ok r = false -> exists e, offends r e.
Proof.
  unfold record_ok.
  destruct r as [| | | | |l|d]; simpl;
    try (intros _; exists TypeError; apply offends_no_mapping; intros d0;
         discriminate).
  destruct (dict_get d "token") as [tok|] eqn:Htok.
  - destruct (dict_get d "webinar-ids") as [wids|] eqn:Hids; [discriminate|].
    intros _. exists (KeyError (PStr "webinar-ids")).
    apply (offends_no_ids d tok); assumption.
  - intros _. exists (KeyError (PStr "token")). apply offends_no_token. assumption.
Qed.

(** Records not all usable: there is a first one that is not. *)
Lemma first_offender (items : list pyval) :
  forallb record_ok items = false ->
  exists pre r post e,
    items = (pre ++ r :: post)%list
    /\ forallb record_ok pre = true
    /\ offends r e.
Proof.
  induction items as [|a items IH]; simpl; [discriminate|].
  destruct (record_ok a) eqn:Ha; simpl.
  - intros Hbad. destruct (IH Hbad) as (pre & r & post & e & -> & Hpre & Hoff).
    exists (a :: pre), r, post, e. split; [reflexivity|].
    split; [simpl; rewrite Ha; assumption | assumption].
  - intros _. destruct (record_not_ok_offends a Ha) as (e & Hoff).
    exists [], a, items, e. split; [reflexivity|]. split; [reflexivity | assumption].
Qed.

(** C4, as the code has it: [from_yaml_text] raises exactly when the text
    does not load, the loaded value cannot be iterated, or an item visited
    is not a mapping with both keys.  The exception is then, in this
    order of causes: the loader's own when the text does not load; a
    [TypeError] when the loaded value cannot be iterated; and otherwise
    the one of the first item that cannot be used, a [TypeError] when it
    is no mapping, a [KeyError] for [token] when that key is missing, a
    [KeyError] for [webinar-ids] when only that key is missing.  In every
    other case, a text that loads to an empty mapping among them, it
    returns a list of Accounts. *)
Theorem from_yaml_text_raises (env : environment) (content : string) :
  (loads_records env content = false ->
   exists e,
     from_yaml_text env content = Raise e
     /\ (yaml_load env content = Raise e
         \/ (exists v,
               yaml_load env content = Ok v
               /\ (forall items, py_iter v <> Ok items)
               /\ e = TypeError)
         \/ (exists v pre r post,
               yaml_load env content = Ok v
               /\ py_iter v = Ok (pre ++ r :: post)%list
               /\ forallb record_ok pre = true
               /\ offends r e)))
  /\ (loads_records env content = true ->
      exists accounts, from_yaml_text env content = Ok accounts).
Proof.
  unfold loads_records, from_yaml_text.
  destruct (yaml_load env content) as [v|e]; simpl.
  - destruct (py_iter v) as [items|e] eqn:Hiter; simpl.
    + split.
      * intros Hbad.
        destruct (first_offender items Hbad) as (pre & r & post & e & -> & Hpre & Hoff).
        exists e. split.
        -- apply from_yaml_loop_offender; assumption.
        -- right. right. exists v, pre, r, post. repeat split; assumption.
      * intros Hok.
        destruct (from_yaml_loop_ok items Hok []) as (made & Hrun & _).
        exists made. assumption.
    + split; [|discriminate].
      assert (He : e = TypeError) by (destruct v; simpl in Hiter; congruence).
      intros _. exists e. split; [reflexivity|]. right. left.
      exists v. split; [reflexivity|]. split; [|assumption].
      intros items. rewrite Hiter. discriminate.
  - split; [|discriminate].
    intros _. exists e. split; [reflexivity | left; reflexivity].
Qed.

(** ** The operation functions *)

Lemma requests_of_app (a b : trace) :
  requests_of (a ++ b)%list = (requests_of a ++ requests_of b)%list.
Proof.
  induction a as [|e a IH]; simpl; [reflexivity|].
  destruct e; simpl; rewrite IH; reflexivity.
Qed.

Section Loop.

Variable env : environment.
Variables label template : string.
Variable payload : pyval.
Variable account : Account.

Let step := patch_step env label template payload account.
Let req := planned env template payload account.

(** A turn whose request is answered leaves its four events and goes on. *)
Lemma patch_step_answered (wid : pyval) (code : Z) (tr : trace) :
  http env (tr ++ [Stdout ((label ++ py_str env wid ++ " ...") ++ " ")])%list
       (req wid) = Response code ->
  step wid tr
  = (Ok tt, (tr ++ turn env label template payload account wid code)%list).
Proof.
  intros Hreply. unfold step, patch_step, bind, print, sleep, emit, requests_patch.
  fold (planned env template payload account wid). fold req.
  rewrite Hreply. unfold turn. fold req.
  repeat rewrite <- app_assoc. reflexivity.
Qed.

(** A turn whose request raises ends there, the request made. *)
Lemma patch_step_failed (wid : pyval) (e : exn) (tr : trace) :
  http env (tr ++ [Stdout ((label ++ py_str env wid ++ " ...") ++ " ")])%list
       (req wid) = Failure e ->
  step wid tr
  = (Raise e,
     (tr ++ [Stdout ((label ++ py_str env wid ++ " ...") ++ " "); Patch (req wid)])%list).
Proof.
  intros Hreply. unfold step, patch_step, bind, print, sleep, emit, requests_patch.
  fold (planned env template payload account wid). fold req.
  rewrite Hreply. repeat rewrite <- app_assoc. reflexivity.
Qed.

(** Whatever the server does, the requests of the loop are those planned
    for the first ids of the list, in order. *)
Lemma for_each_requests (ws : list pyval) (tr : trace) :
  exists evs n,
    snd (for_each step ws tr) = (tr ++ evs)%list
    /\ requests_of evs = map req (firstn n ws).
Proof.
  revert tr. induction ws as [|w ws IH]; intros tr; simpl.
  - exists [], 0%nat. rewrite app_nil_r. split; reflexivity.
  - unfold bind.
    destruct (http env (tr ++ [Stdout ((label ++ py_str env w ++ " ...") ++ " ")])%list
                   (req w)) as [code|e] eqn:Hreply.
    + rewrite (patch_step_answered w code tr Hreply).
      destruct (IH (tr ++ turn env label template payload account w code)%list)
        as (evs & n & Hrun & Hreqs).
      exists (turn env label template payload account w code ++ evs)%list, (S n).
      split.
      * rewrite Hrun, <- app_assoc. reflexivity.
      * rewrite requests_of_app, Hreqs. reflexivity.
    + rewrite (patch_step_failed w e tr Hreply).
      exists [Stdout ((label ++ py_str env w ++ " ...") ++ " "); Patch (req w)], 1%nat.
      split; reflexivity.
Qed.

(** When the ids up to some point are all answered, the loop gets through
    them and stands at the next id. *)
Lemma for_each_answered_prefix (pre rest : list pyval) (tr : trace) :
  (forall t w, In w pre -> exists code, http env t (req w) = Response code) ->
  exists evs,
    for_each step (pre ++ rest) tr = for_each step rest (tr ++ evs)%list
    /\ requests_of evs = map req pre.
Proof.
  revert tr. induction pre as [|w pre IH]; intros tr Hans; simpl.
  - exists []. rewrite app_nil_r. split; reflexivity.
  - destruct (Hans (tr ++ [Stdout ((label ++ py_str env w ++ " ...") ++ " ")])%list w
                   (or_introl eq_refl)) as (code & Hreply).
    unfold bind at 1. rewrite (patch_step_answered w code tr Hreply).
    destruct (IH (tr ++ turn env label template payload account w code)%list)
      as (evs & Hrun & Hreqs).
    { intros t x Hx. apply Hans. right. assumption. }
    exists (turn env label template payload account w code ++ evs)%list. split.
    + rewrite Hrun, <- app_assoc. reflexivity.
    + rewrite requests_of_app, Hreqs. reflexivity.
Qed.

Lemma patch_loop_list (ws : list pyval) (tr : trace) :
  webinar_ids account = PList ws ->
  patch_loop env label template payload account tr = for_each step ws tr.
Proof.
  intros Hids. unfold patch_loop, bind, lift. rewrite Hids. reflexivity.
Qed.

(** With a server that answers, the loop makes the planned request of
    every id, in order, and returns. *)
Lemma patch_loop_answered (ws : list pyval) (tr : trace) :
  webinar_ids account = PList ws ->
  (forall t r, exists code, http env t r = Response code) ->
  exists evs,
    patch_loop env label template payload account tr = (Ok tt, (tr ++ evs)%list)
    /\ requests_of evs = map req ws.
Proof.
  intros Hids Hans. rewrite (patch_loop_list ws tr Hids).
  destruct (for_each_answered_prefix ws [] tr) as (evs & Hrun & Hreqs).
  { intros t w _. apply Hans. }
  rewrite app_nil_r in Hrun. exists evs. split; [|assumption].
  rewrite Hrun. reflexivity.
Qed.

(** Every request of the loop carries the loop's payload. *)
Lemma patch_loop_payload (tr : trace) :
  exists evs,
    snd (patch_loop env label template payload account tr) = (tr ++ evs)%list
    /\ Forall (fun r => req_json r = payload) (requests_of evs).
Proof.
  unfold patch_loop, bind, lift.
  destruct (py_iter (webinar_ids account)) as [ws|e].
  - destruct (for_each_requests ws tr) as (evs & n & Hrun & Hreqs).
    exists evs. split; [assumption|]. rewrite Hreqs.
    apply Forall_forall. intros r Hr. apply in_map_iff in Hr.
    destruct Hr as (w & <- & _). reflexivity.
  - exists []. rewrite app_nil_r. split; [reflexivity | constructor].
Qed.

End Loop.

Lemma append_empty_r (s : string) : s ++ EmptyString = s.
Proof. induction s as [|c s IH]; simpl; [|rewrite IH]; reflexivity. Qed.

(** Each of the four functions is the common loop, and the loop's request
    for an id goes to the base URL followed by the operation's path. *)
Lemma operation_shape (env : environment) (o : operation) :
  exists label template payload,
    operation_function env o = patch_loop env label template payload
    /\ forall account wid,
         addressed (planned env template payload account wid)
         = (url_of env o wid, headers env account).
Proof.
  destruct o; do 3 eexists; (split; [reflexivity|]); intros account wid;
    unfold addressed, planned, url_of, ZOOM_API_BASE_URL; simpl;
    rewrite ?append_empty_r; reflexivity.
Qed.

(** C1: on an Account whose webinar ids are the list ws, and with a server
    that answers each request, an operation function makes exactly one
    PATCH request per id, in the order of the list, each to the base URL
    followed by the operation's path for that id and each with the
    account's headers; then it returns. *)
Theorem operation_requests (env : environment) (o : operation)
  (account : Account) (ws : list pyval) (tr : trace) :
  webinar_ids account = PList ws ->
  (forall t r, exists code, http env t r = Response code) ->
  exists evs,
    operation_function env o account tr = (Ok tt, (tr ++ evs)%list)
    /\ length (requests_of evs) = length ws
    /\ map addressed (requests_of evs)
       = map (fun w => ("https://api.zoom.us/v2" ++ path_of o (py_str env w),
                        headers env account)) ws.
Proof.
  intros Hids Hans.
  destruct (operation_shape env o) as (label & template & payload & -> & Haddr).
  destruct (patch_loop_answered env label template payload account ws tr Hids Hans)
    as (evs & Hrun & Hreqs).
  exists evs. split; [assumption|]. rewrite Hreqs. split.
  - apply length_map.
  - rewrite map_map. apply map_ext. intros w. apply Haddr.
Qed.

(** Whatever the server does, every request an operation function makes
    carries the fixed payload of that operation.  Registration questions: the standard fields
    last_name, org and job_title, each required, and one required
    multiple-choice custom question with seven answers.  Email setting:
    the reminder notification enabled with type 7.  Q&A setting: questions
    and answers enabled, no anonymous questions, all questions answered,
    upvotes and comments allowed. *)
Lemma payloads_any_server (env : environment) (account : Account) (tr : trace) :
  (exists evs,
     snd (update_cots2021_registration_questions env account tr) = (tr ++ evs)%list
     /\ Forall (fun r =>
          req_json r
          = PDict [
              (PStr "questions", PList [
                 PDict [ (PStr "field_name", PStr "last_name");
                         (PStr "required", PBool true) ];
                 PDict [ (PStr "field_name", PStr "org");
                         (PStr "required", PBool true) ];
                 PDict [ (PStr "field_name", PStr "job_title");
                         (PStr "required", PBool true) ] ]);
              (PStr "custom_questions", PList [
                 PDict [ (PStr "title", PStr "Where do you learn about COTS 2021?");
                         (PStr "type", PStr "multiple");
                         (PStr "required", PBool true);
                         (PStr "answers", PList [
                            PStr "Facebook"; PStr "Instagram"; PStr "Twitter";
                            PStr "Email"; PStr "Newsletters"; PStr "Friends";
                            PStr "Other" ]) ] ]) ])
          (requests_of evs))
  /\ (exists evs,
     snd (update_cots20201_email_settings env account tr) = (tr ++ evs)%list
     /\ Forall (fun r =>
          req_json r
          = PDict [
              (PStr "settings", PDict [
                 (PStr "attendees_and_panelists_reminder_email_notification",
                  PDict [ (PStr "enable", PBool true); (PStr "type", PInt 7) ]) ]) ])
          (requests_of evs))
  /\ (exists evs,
     snd (update_qa env account tr) = (tr ++ evs)%list
     /\ Forall (fun r =>
          req_json r
          = PDict [
              (PStr "settings", PDict [
                 (PStr "question_and_answer",
                  PDict [ (PStr "enable", PBool true);
                          (PStr "allow_anonymous_questions", PBool false);
                          (PStr "answer_questions", PStr "all");
                          (PStr "attendees_can_upvote", PBool true);
                          (PStr "attendees_can_comment", PBool true) ]) ]) ])
          (requests_of evs)).
Proof.
  split; [|split].
  - apply (patch_loop_payload env "Updating registration questions for "
             "/webinars/{wid}/registrants/questions").
  - apply (patch_loop_payload env "Update email settings for " "/webinars/{wid}").
  - apply (patch_loop_payload env "Update q&a settings for " "/webinars/{wid}").
Qed.

Lemma planned_requests (env : environment) (template : string)
  (payload : pyval) (account : Account) (ws : list pyval) (url : pyval -> string) :
  (forall w, ZOOM_API_BASE_URL ++ format_wid template (py_str env w) = url w) ->
  map (planned env template payload account) ws
  = map (fun w => mkRequest (url w) payload (headers env account)) ws.
Proof.
  intros Hurl. apply map_ext. intros w. unfold planned. rewrite Hurl. reflexivity.
Qed.

(** C2: on an Account whose webinar ids are the list ws, and with a server
    that answers each request, an operation function sends for every id
    of ws, in order, one request whose body is the fixed payload of that
    operation; the payload is the same literal for every id and every
    account.  Registration questions: the standard fields last_name, org
    and job_title, each required, and one required multiple-choice custom
    question with seven answers.  Email setting: the reminder notification
    enabled with type 7.  Q&A setting: questions and answers enabled, no
    anonymous questions, all questions answered, upvotes and comments
    allowed. *)
Theorem operation_payloads (env : environment) (account : Account)
  (ws : list pyval) (tr : trace) :
  webinar_ids account = PList ws ->
  (forall t r, exists code, http env t r = Response code) ->
  (exists evs,
     update_cots2021_registration_questions env account tr = (Ok tt, (tr ++ evs)%list)
     /\ requests_of evs
        = map (fun w =>
            mkRequest
              ("https://api.zoom.us/v2/webinars/" ++ py_str env w
               ++ "/registrants/questions")
              (PDict [
              (PStr "questions", PList [
                 PDict [ (PStr "field_name", PStr "last_name");
                         (PStr "required", PBool true) ];
                 PDict [ (PStr "field_name", PStr "org");
                         (PStr "required", PBool true) ];
                 PDict [ (PStr "field_name", PStr "job_title");
                         (PStr "required", PBool true) ] ]);
              (PStr "custom_questions", PList [
                 PDict [ (PStr "title", PStr "Where do you learn about COTS 2021?");
                         (PStr "type", PStr "multiple");
                         (PStr "required", PBool true);
                         (PStr "answers", PList [
                            PStr "Facebook"; PStr "Instagram"; PStr "Twitter";
                            PStr "Email"; PStr "Newsletters"; PStr "Friends";
                            PStr "Other" ]) ] ]) ])
              (headers env account)) ws)
  /\ (exists evs,
     update_cots20201_email_settings env account tr = (Ok tt, (tr ++ evs)%list)
     /\ requests_of evs
        = map (fun w =>
            mkRequest
              ("https://api.zoom.us/v2/webinars/" ++ py_str env w)
              (PDict [
              (PStr "settings", PDict [
                 (PStr "attendees_and_panelists_reminder_email_notification",
                  PDict [ (PStr "enable", PBool true); (PStr "type", PInt 7) ]) ]) ])
              (headers env account)) ws)
  /\ (exists evs,
     update_qa env account tr = (Ok tt, (tr ++ evs)%list)
     /\ requests_of evs
        = map (fun w =>
            mkRequest
              ("https://api.zoom.us/v2/webinars/" ++ py_str env w)
              (PDict [
              (PStr "settings", PDict [
                 (PStr "question_and_answer",
                  PDict [ (PStr "enable", PBool true);
                          (PStr "allow_anonymous_questions", PBool false);
                          (PStr "answer_questions", PStr "all");
                          (PStr "attendees_can_upvote", PBool true);
                          (PStr "attendees_can_comment", PBool true) ]) ]) ])
              (headers env account)) ws).
Proof.
  intros Hids Hans. split; [|split].
  - destruct (patch_loop_answered env "Updating registration questions for "
                "/webinars/{wid}/registrants/questions" (payload_of UpdateRegistrationQuestion)
                account ws tr Hids Hans) as (evs & Hrun & Hreqs).
    exists evs. split; [exact Hrun|]. rewrite Hreqs.
    apply planned_requests. intros w. reflexivity.
  - destruct (patch_loop_answered env "Update email settings for " "/webinars/{wid}"
                (payload_of UpdateEmailSetting) account ws tr Hids Hans)
      as (evs & Hrun & Hreqs).
    exists evs. split; [exact Hrun|]. rewrite Hreqs.
    apply planned_requests. intros w. unfold ZOOM_API_BASE_URL. simpl.
    rewrite append_empty_r. reflexivity.
  - destruct (patch_loop_answered env "Update q&a settings for " "/webinars/{wid}"
                (payload_of UpdateQaSetting) account ws tr Hids Hans)
      as (evs & Hrun & Hreqs).
    exists evs. split; [exact Hrun|]. rewrite Hreqs.
    apply planned_requests. intros w. unfold ZOOM_API_BASE_URL. simpl.
    rewrite append_empty_r. reflexivity.
Qed.


(** ** The command dispatcher *)

Lemma for_each_pass {A} (l : list A) (tr : trace) :
  for_each (fun _ : A => ret tt) l tr = (Ok tt, tr).
Proof.
  induction l as [|x l IH]; simpl; [reflexivity|].
  unfold bind, ret at 1. apply IH.
Qed.

Lemma choices_accepted (name : string) :
  In name choices -> existsb (String.eqb name) choices = true.
Proof.
  intros Hin. apply existsb_exists. exists name. split; [assumption|].
  apply String.eqb_refl.
Qed.

(** C3: [create-poll] is one of the accepted operation names, and a run
    with it makes no request, whatever the configuration: it stops at a
    missing or unreadable file or at a configuration that does not load,
    and otherwise prints the number of accounts and the heading of the
    operation and ends, with no turn of the poll function's loop for any
    account. *)
Theorem create_poll_inert (env : environment) (argv_config : option string) :
  In "create-poll" choices
  /\ requests_of (snd (main env "create-poll" argv_config [])) = []
  /\ main env "create-poll" argv_config []
     = match fs env match argv_config with
                    | Some path => path
                    | None => "./config.yaml"
                    end
       with
       | None =>
           (Raise (SystemExit 1),
            [ Stdout ("[error] Cannot find a configuration file. We expected it to be at ./config.yaml" ++ nl) ])
       | Some Directory => (Raise IsADirectoryError, [])
       | Some (File content) =>
           match from_yaml_text env content with
           | Raise e => (Raise e, [])
           | Ok accounts =>
               (Ok tt,
                [ Stdout (format_pos "Found {} account(s)"
                            (str_of_Z (Z.of_nat (length accounts))) ++ nl);
                  Stdout ("Creating poll" ++ nl) ])
           end
       end.
Proof.
  set (path := match argv_config with
               | Some path => path
               | None => "./config.yaml"
               end).
  assert (Hrun : main env "create-poll" argv_config []
     = match fs env path with
       | None =>
           (Raise (SystemExit 1),
            [ Stdout ("[error] Cannot find a configuration file. We expected it to be at ./config.yaml" ++ nl) ])
       | Some Directory => (Raise IsADirectoryError, [])
       | Some (File content) =>
           match from_yaml_text env content with
           | Raise e => (Raise e, [])
           | Ok accounts =>
               (Ok tt,
                [ Stdout (format_pos "Found {} account(s)"
                            (str_of_Z (Z.of_nat (length accounts))) ++ nl);
                  Stdout ("Creating poll" ++ nl) ])
           end
       end).
  { unfold main, bind, parse_args, path_exists, read_text. simpl. fold path.
    destruct (fs env path) as [[content|]|]; simpl; try reflexivity.
    unfold lift. destruct (from_yaml_text env content) as [accounts|e]; simpl;
      [|reflexivity].
    apply for_each_pass. }
  split; [|split].
  - simpl. auto.
  - rewrite Hrun. destruct (fs env path) as [[content|]|]; try reflexivity.
    destruct (from_yaml_text env content); reflexivity.
  - exact Hrun.
Qed.

Lemma parse_args_accepted (argv_op : string) (argv_config : option string)
  (tr : trace) :
  In argv_op choices ->
  parse_args argv_op argv_config tr
  = (Ok (mkNamespace argv_op
           match argv_config with
           | Some path => path
           | None => "./config.yaml"
           end), tr).
Proof.
  intros Hop. unfold parse_args. rewrite (choices_accepted argv_op Hop).
  reflexivity.
Qed.

(** The run that finds nothing at the path of the configuration. *)
Lemma main_missing (env : environment) (argv_op : string)
  (argv_config : option string) (args : Namespace) :
  parse_args argv_op argv_config [] = (Ok args, []) ->
  fs env (config args) = None ->
  main env argv_op argv_config []
  = (Raise (SystemExit 1),
     [ Stdout ("[error] Cannot find a configuration file. We expected it to be at ./config.yaml" ++ nl) ]).
Proof.
  intros Hargs Hfs. unfold main. unfold bind at 1. rewrite Hargs.
  unfold bind, path_exists. rewrite Hfs. reflexivity.
Qed.

(** C7: when the operation name is accepted and nothing exists at the
    path of the configuration, the run prints the error message and
    nothing else, makes no request and exits with status 1. *)
Theorem missing_configuration (env : environment) (argv_op : string)
  (argv_config : option string) (args : Namespace) :
  parse_args argv_op argv_config [] = (Ok args, []) ->
  fs env (config args) = None ->
  main env argv_op argv_config []
  = (Raise (SystemExit 1),
     [ Stdout ("[error] Cannot find a configuration file. We expected it to be at ./config.yaml" ++ nl) ])
  /\ exit_status (fst (main env argv_op argv_config [])) = 1
  /\ requests_of (snd (main env argv_op argv_config [])) = [].
Proof.
  intros Hargs Hfs.
  rewrite (main_missing env argv_op argv_config args Hargs Hfs).
  repeat split.
Qed.

(** C9: the message for a missing configuration names [./config.yaml]
    whatever path was given with [--config]: standard output is the same
    fixed line for every path at which nothing exists. *)
Theorem error_message_names_default_path (env : environment) (argv_op : string)
  (path : string) :
  In argv_op choices ->
  fs env path = None ->
  stdout_of (snd (main env argv_op (Some path) []))
  = "[error] Cannot find a configuration file. We expected it to be at ./config.yaml"
    ++ nl.
Proof.
  intros Hop Hfs.
  rewrite (main_missing env argv_op (Some path) (mkNamespace argv_op path)).
  - reflexivity.
  - apply parse_args_accepted. assumption.
  - assumption.
Qed.

(** ** Runs on the test bench *)

(** The scenario of two accounts, the first with the webinars 111 and 222
    and the second with 333: an email-setting run makes three requests, to
    111, 222 and 333 in this order, each with the bearer header of its
    account. *)
Example two_accounts_email_run :
  map addressed
      (requests_of (snd (main (bench 204) "update-email-setting" None [])))
  = [ ("https://api.zoom.us/v2/webinars/111",
       PDict [ (PStr "authorization", PStr "Bearer aaa");
               (PStr "content-type", PStr "application/json") ]);
      ("https://api.zoom.us/v2/webinars/222",
       PDict [ (PStr "authorization", PStr "Bearer aaa");
               (PStr "content-type", PStr "application/json") ]);
      ("https://api.zoom.us/v2/webinars/333",
       PDict [ (PStr "authorization", PStr "Bearer bbb");
               (PStr "content-type", PStr "application/json") ]) ].
Proof. reflexivity. Qed.

(** With the server down the first request raises and ends the run. *)
Example offline_run :
  fst (main bench_offline "update-qa-setting" None [])
  = Raise (RequestException "connection refused")
  /\ map req_url (requests_of (snd (main bench_offline "update-qa-setting" None [])))
     = [ "https://api.zoom.us/v2/webinars/111" ].
Proof. split; reflexivity. Qed.

(** The poll function itself would make a request per webinar. *)
Example create_poll_function_run :
  map req_url
      (requests_of
         (snd (create_poll (bench 204)
                 (mkAccount (PStr "aaa") (PList [ PStr "111"; PStr "222" ])) [])))
  = [ "https://api.zoom.us/v2/webinars/111/polls";
      "https://api.zoom.us/v2/webinars/222/polls" ].
Proof. reflexivity. Qed.

Lemma operation_requests_witness :
  exists evs,
    operation_function (bench 204) UpdateRegistrationQuestion
      (mkAccount (PStr "aaa") (PList [ PStr "111"; PStr "222" ])) []
    = (Ok tt, ([] ++ evs)%list)
    /\ length (requests_of evs) = length [ PStr "111"; PStr "222" ]
    /\ map addressed (requests_of evs)
       = map (fun w => ("https://api.zoom.us/v2"
                        ++ path_of UpdateRegistrationQuestion (py_str (bench 204) w),
                        headers (bench 204)
                          (mkAccount (PStr "aaa") (PList [ PStr "111"; PStr "222" ]))))
             [ PStr "111"; PStr "222" ].
Proof.
  apply (operation_requests (bench 204) UpdateRegistrationQuestion
           (mkAccount (PStr "aaa") (PList [ PStr "111"; PStr "222" ]))
           [ PStr "111"; PStr "222" ] []).
  - reflexivity.
  - intros t r. exists 204. reflexivity.
Defined.

Lemma operation_payloads_witness :
  (exists evs,
     update_cots2021_registration_questions (bench 204)
       (mkAccount (PStr "aaa") (PList [ PStr "111"; PStr "222" ])) []
     = (Ok tt, ([] ++ evs)%list)
     /\ length (requests_of evs) = 2%nat
     /\ map req_json (requests_of evs)
        = [ payload_of UpdateRegistrationQuestion;
            payload_of UpdateRegistrationQuestion ])
  /\ (exists evs,
     update_cots20201_email_settings (bench 204)
       (mkAccount (PStr "aaa") (PList [ PStr "111"; PStr "222" ])) []
     = (Ok tt, ([] ++ evs)%list)
     /\ length (requests_of evs) = 2%nat
     /\ map req_json (requests_of evs)
        = [ payload_of UpdateEmailSetting; payload_of UpdateEmailSetting ])
  /\ (exists evs,
     update_qa (bench 204)
       (mkAccount (PStr "aaa") (PList [ PStr "111"; PStr "222" ])) []
     = (Ok tt, ([] ++ evs)%list)
     /\ length (requests_of evs) = 2%nat
     /\ map req_json (requests_of evs)
        = [ payload_of UpdateQaSetting; payload_of UpdateQaSetting ]).
Proof.
  destruct (operation_payloads (bench 204)
              (mkAccount (PStr "aaa") (PList [ PStr "111"; PStr "222" ]))
              [ PStr "111"; PStr "222" ] [])
    as ((evs1 & Hrun1 & Hreqs1) & (evs2 & Hrun2 & Hreqs2) & (evs3 & Hrun3 & Hreqs3)).
  - reflexivity.
  - intros t r. exists 204. reflexivity.
  - split; [|split].
    + exists evs1. split; [exact Hrun1|]. rewrite Hreqs1. split; reflexivity.
    + exists evs2. split; [exact Hrun2|]. rewrite Hreqs2. split; reflexivity.
    + exists evs3. split; [exact Hrun3|]. rewrite Hreqs3. split; reflexivity.
Defined.


Lemma from_yaml_text_records_witness :
  exists accounts,
    from_yaml_text (bench 204) two_accounts_text = Ok accounts
    /\ length accounts = 2%nat
    /\ Forall2 made_from
         [ PDict [ (PStr "token", PStr "aaa");
                   (PStr "webinar-ids", PList [ PStr "111"; PStr "222" ]) ];
           PDict [ (PStr "token", PStr "bbb");
                   (PStr "webinar-ids", PList [ PStr "333" ]) ] ]
         accounts.
Proof.
  apply (from_yaml_text_records (bench 204) two_accounts_text
           [ PDict [ (PStr "token", PStr "aaa");
                     (PStr "webinar-ids", PList [ PStr "111"; PStr "222" ]) ];
             PDict [ (PStr "token", PStr "bbb");
                     (PStr "webinar-ids", PList [ PStr "333" ]) ] ]);
    reflexivity.
Defined.

Lemma from_yaml_text_null_witness :
  yaml_load (bench 204) EmptyString = Ok PNone
  /\ from_yaml_text (bench 204) EmptyString = Raise TypeError
  /\ from_yaml_text (bench 204) EmptyString <> Ok [].
Proof.
  split; [reflexivity|].
  apply (from_yaml_text_null (bench 204) EmptyString). reflexivity.
Defined.

Lemma from_yaml_text_raises_witness :
  loads_records (bench 204) "- token: aaa" = false
  /\ exists e,
       from_yaml_text (bench 204) "- token: aaa" = Raise e
       /\ (yaml_load (bench 204) "- token: aaa" = Raise e
           \/ (exists v,
                 yaml_load (bench 204) "- token: aaa" = Ok v
                 /\ (forall items, py_iter v <> Ok items)
                 /\ e = TypeError)
           \/ (exists v pre r post,
                 yaml_load (bench 204) "- token: aaa" = Ok v
                 /\ py_iter v = Ok (pre ++ r :: post)%list
                 /\ forallb record_ok pre = true
                 /\ offends r e)).
Proof.
  split; [reflexivity|].
  apply (proj1 (from_yaml_text_raises (bench 204) "- token: aaa")). reflexivity.
Defined.

(** C4 as it is stated fails twice over.  The text of an empty mapping
    loads, what it loads to is not a sequence of account records, and
    [from_yaml_text] returns the empty list of Accounts without raising
    anything.  And for a record without [webinar-ids] the exception raised
    is a [KeyError], not a [ConfigurationError]. *)
Lemma from_yaml_text_unvalidated :
  (yaml_load (bench 204) "{}" = Ok (PDict [])
   /\ spec_expected_structure (PDict []) = false
   /\ from_yaml_text (bench 204) "{}" = Ok []
   /\ ~ (exists e, from_yaml_text (bench 204) "{}" = Raise e))
  /\ (yaml_load (bench 204) "- token: aaa"
      = Ok (PList [ PDict [ (PStr "token", PStr "aaa") ] ])
      /\ from_yaml_text (bench 204) "- token: aaa"
         = Raise (KeyError (PStr "webinar-ids"))
      /\ exn_class (KeyError (PStr "webinar-ids")) <> "ConfigurationError").
Proof.
  split.
  - repeat split. intros (e & He). discriminate He.
  - repeat split. discriminate.
Qed.

Lemma missing_configuration_witness :
  fs (bench 204) "nowhere.yaml" = None
  /\ main (bench 204) "update-qa-setting" (Some "nowhere.yaml") []
     = (Raise (SystemExit 1),
        [ Stdout ("[error] Cannot find a configuration file. We expected it to be at ./config.yaml" ++ nl) ])
  /\ exit_status (fst (main (bench 204) "update-qa-setting" (Some "nowhere.yaml") [])) = 1
  /\ requests_of (snd (main (bench 204) "update-qa-setting" (Some "nowhere.yaml") [])) = [].
Proof.
  split; [reflexivity|].
  apply (missing_configuration (bench 204) "update-qa-setting" (Some "nowhere.yaml")
           (mkNamespace "update-qa-setting" "nowhere.yaml")); reflexivity.
Defined.

Lemma error_message_names_default_path_witness :
  fs (bench 204) "/etc/zoom/accounts.yaml" = None
  /\ stdout_of (snd (main (bench 204) "update-email-setting"
                       (Some "/etc/zoom/accounts.yaml") []))
     = "[error] Cannot find a configuration file. We expected it to be at ./config.yaml"
       ++ nl.
Proof.
  split; [reflexivity|].
  apply (error_message_names_default_path (bench 204) "update-email-setting"
           "/etc/zoom/accounts.yaml").
  - simpl. auto.
  - reflexivity.
Defined.

(** * Further properties *)

(** ** The loops of the operation functions, for any server *)

Lemma operation_function_loop (env : environment) (o : operation) :
  operation_function env o
  = patch_loop env (label_of o) (template_of o) (payload_of o).
Proof. destruct o; reflexivity. Qed.

Lemma planned_request_of (env : environment) (o : operation)
  (account : Account) (w : pyval) :
  planned env (template_of o) (payload_of o) account w
  = request_of env o account w.
Proof.
  unfold planned, request_of, url_of, ZOOM_API_BASE_URL.
  destruct o; simpl; rewrite ?append_empty_r; reflexivity.
Qed.

Lemma slept_app (a b : trace) : slept (a ++ b)%list = slept a + slept b.
Proof.
  induction a as [|e a IH]; simpl; [reflexivity|].
  destruct e; rewrite IH; try reflexivity. apply Z.add_assoc.
Qed.

Lemma kept_request (env : environment) (o : operation) (account : Account)
  (w : pyval) :
  kept_event (Patch (request_of env o account w)).
Proof.
  split.
  - unfold request_of, url_of, path_of. simpl.
    destruct o; simpl;
      match goal with
      | |- String.prefix EmptyString ?x = true => destruct x; reflexivity
      end.
  - exists (py_str env (token account)). reflexivity.
Qed.

Section OperationLoop.

Variable env : environment.
Variable o : operation.
Variable account : Account.

Let step := patch_step env (label_of o) (template_of o) (payload_of o) account.

Lemma operation_function_iter (ws : list pyval) (tr : trace) :
  py_iter (webinar_ids account) = Ok ws ->
  operation_function env o account tr = for_each step ws tr.
Proof.
  intros Hiter. rewrite operation_function_loop.
  unfold patch_loop, bind, lift. rewrite Hiter. reflexivity.
Qed.

Lemma operation_function_not_iter (e : exn) (tr : trace) :
  py_iter (webinar_ids account) = Raise e ->
  operation_function env o account tr = (Raise e, tr).
Proof.
  intros Hiter. rewrite operation_function_loop.
  unfold patch_loop, bind, lift. rewrite Hiter. reflexivity.
Qed.

Lemma step_answered (w : pyval) (code : Z) (tr : trace) :
  http env (tr ++ [Stdout (progress_of env o w)])%list (request_of env o account w)
  = Response code ->
  step w tr = (Ok tt, (tr ++ turn_of env o account w code)%list).
Proof.
  intros Hreply. unfold step.
  rewrite (patch_step_answered env _ _ _ account w code tr).
  - unfold turn, turn_of, progress_of. rewrite planned_request_of. reflexivity.
  - rewrite planned_request_of. exact Hreply.
Qed.

Lemma step_failed (w : pyval) (e : exn) (tr : trace) :
  http env (tr ++ [Stdout (progress_of env o w)])%list (request_of env o account w)
  = Failure e ->
  step w tr
  = (Raise e,
     (tr ++ [Stdout (progress_of env o w); Patch (request_of env o account w)])%list).
Proof.
  intros Hreply. unfold step.
  rewrite (patch_step_failed env _ _ _ account w e tr).
  - unfold progress_of. rewrite planned_request_of. reflexivity.
  - rewrite planned_request_of. exact Hreply.
Qed.

(** The loop for any server: it makes the requests of the first ids of
    the list, all of them when it returns, and keeps to the pace. *)
Lemma loop_outcome (ws : list pyval) (tr : trace) :
  exists evs n,
    snd (for_each step ws tr) = (tr ++ evs)%list
    /\ requests_of evs = map (request_of env o account) (firstn n ws)
    /\ (fst (for_each step ws tr) = Ok tt -> n = length ws)
    /\ Forall kept_event evs.
Proof.
  revert tr. induction ws as [|w ws IH]; intros tr; simpl.
  - exists [], 0%nat. rewrite app_nil_r. repeat split. constructor.
  - unfold bind.
    destruct (http env (tr ++ [Stdout (progress_of env o w)])%list
                   (request_of env o account w)) as [code|e] eqn:Hreply.
    + rewrite (step_answered w code tr Hreply).
      destruct (IH (tr ++ turn_of env o account w code)%list)
        as (evs & n & Hrun & Hreqs & Hall & Hkept).
      exists (turn_of env o account w code ++ evs)%list, (S n).
      split; [rewrite Hrun, <- app_assoc; reflexivity|].
      split; [rewrite requests_of_app, Hreqs; reflexivity|].
      split; [intros Hok; f_equal; apply Hall; exact Hok|].
      apply Forall_app. split; [|assumption].
      unfold turn_of.
      constructor; [exact I|]. constructor; [apply kept_request|].
      constructor; [exact I|]. constructor; [reflexivity | constructor].
    + rewrite (step_failed w e tr Hreply).
      exists [Stdout (progress_of env o w); Patch (request_of env o account w)], 1%nat.
      split; [reflexivity|]. split; [reflexivity|].
      split; [discriminate|].
      constructor; [exact I|]. constructor; [apply kept_request | constructor].
Qed.

(** The loop with the ids answered: one turn per id. *)
Lemma loop_trace (ws : list pyval) (tr : trace) :
  (forall t w, In w ws ->
     exists code, http env t (request_of env o account w) = Response code) ->
  exists codes,
    length codes = length ws
    /\ for_each step ws tr
       = (Ok tt,
          (tr ++ flat_map (fun p => turn_of env o account (fst p) (snd p))
                          (combine ws codes))%list).
Proof.
  revert tr. induction ws as [|w ws IH]; intros tr Hans; simpl.
  - exists []. rewrite app_nil_r. split; reflexivity.
  - destruct (Hans (tr ++ [Stdout (progress_of env o w)])%list w (or_introl eq_refl))
      as (code & Hreply).
    unfold bind. rewrite (step_answered w code tr Hreply).
    destruct (IH (tr ++ turn_of env o account w code)%list) as (codes & Hlen & Hrun).
    { intros t x Hx. apply Hans. right. assumption. }
    exists (code :: codes). split; [simpl; f_equal; assumption|].
    rewrite Hrun. simpl. rewrite <- app_assoc. reflexivity.
Qed.

(** The loop with the first ids answered and the next request raising. *)
Lemma loop_stops (pre : list pyval) (w : pyval) (post : list pyval) (e : exn)
  (tr : trace) :
  (forall t x, In x pre ->
     exists code, http env t (request_of env o account x) = Response code) ->
  (forall t, http env t (request_of env o account w) = Failure e) ->
  exists evs,
    for_each step (pre ++ w :: post) tr
    = (Raise e,
       (tr ++ evs ++ [ Stdout (progress_of env o w);
                       Patch (request_of env o account w) ])%list)
    /\ requests_of evs = map (request_of env o account) pre.
Proof.
  intros Hpre Hw.
  destruct (for_each_answered_prefix env (label_of o) (template_of o) (payload_of o)
              account pre (w :: post) tr) as (evs & Hrun & Hreqs).
  { intros t x Hx. rewrite planned_request_of. apply Hpre. assumption. }
  exists evs. split.
  - pose proof (step_failed w e (tr ++ evs)%list (Hw _)) as Hstep.
    unfold step in *. rewrite Hrun. simpl. unfold bind. rewrite Hstep.
    rewrite <- app_assoc. reflexivity.
  - rewrite Hreqs. apply map_ext. intros x. apply planned_request_of.
Qed.

End OperationLoop.

Lemma flat_map_turns (env : environment) (o : operation) (account : Account)
  (ws : list pyval) (codes : list Z) :
  length codes = length ws ->
  requests_of (flat_map (fun p => turn_of env o account (fst p) (snd p))
                        (combine ws codes))
  = map (request_of env o account) ws
  /\ slept (flat_map (fun p => turn_of env o account (fst p) (snd p))
                     (combine ws codes))
     = 5 * Z.of_nat (length ws).
Proof.
  revert codes. induction ws as [|w ws IH]; intros codes Hlen.
  - split; reflexivity.
  - destruct codes as [|c codes]; [discriminate|].
    injection Hlen as Hlen. destruct (IH codes Hlen) as (Hreqs & Hslept).
    split.
    + simpl. rewrite Hreqs. reflexivity.
    + cbn [combine flat_map turn_of fst snd app slept length].
      rewrite Hslept, Nat2Z.inj_succ. unfold Z.succ.
      rewrite Z.mul_add_distr_l. rewrite Z.add_comm. reflexivity.
Qed.

(** X1: whatever the server does, the requests an operation function makes
    are the requests for the first ids its loop visits, in order and
    without gaps; when the function returns, a request was made for every
    id. *)
Theorem operation_requests_prefix (env : environment) (o : operation)
  (account : Account) (ws : list pyval) (tr : trace) :
  py_iter (webinar_ids account) = Ok ws ->
  exists evs n,
    snd (operation_function env o account tr) = (tr ++ evs)%list
    /\ requests_of evs = map (request_of env o account) (firstn n ws)
    /\ (fst (operation_function env o account tr) = Ok tt -> n = length ws).
Proof.
  intros Hiter. rewrite (operation_function_iter env o account ws tr Hiter).
  destruct (loop_outcome env o account ws tr) as (evs & n & Hrun & Hreqs & Hall & _).
  exists evs, n. repeat split; assumption.
Qed.

(** The loop with each id answered by the status the server has for it. *)
Lemma loop_trace_status (env : environment) (o : operation) (account : Account)
  (status : pyval -> Z) (ws : list pyval) (tr : trace) :
  (forall t w, In w ws ->
     http env t (request_of env o account w) = Response (status w)) ->
  for_each (patch_step env (label_of o) (template_of o) (payload_of o) account) ws tr
  = (Ok tt,
     (tr ++ flat_map (fun w => turn_of env o account w (status w)) ws)%list).
Proof.
  revert tr. induction ws as [|w ws IH]; intros tr Hans; cbn [for_each flat_map].
  - rewrite app_nil_r. reflexivity.
  - unfold bind.
    rewrite (step_answered env o account w (status w) tr (Hans _ w (or_introl eq_refl))).
    rewrite IH.
    + rewrite <- app_assoc. reflexivity.
    + intros t x Hx. apply Hans. right. assumption.
Qed.

(** X2: when the server answers the request for each id w with the status
    code status(w), the events of an operation function are one turn per
    id, in order, and nothing else: the progress line naming the id, the
    request, the line of the very status code that came back for that id,
    a sleep of five seconds. *)
Theorem operation_trace (env : environment) (o : operation)
  (account : Account) (ws : list pyval) (status : pyval -> Z) (tr : trace) :
  py_iter (webinar_ids account) = Ok ws ->
  (forall t w, In w ws ->
     http env t (request_of env o account w) = Response (status w)) ->
  operation_function env o account tr
  = (Ok tt,
     (tr ++ flat_map (fun w =>
                [ Stdout (progress_of env o w);
                  Patch (request_of env o account w);
                  Stdout (str_of_Z (status w) ++ nl);
                  Sleep 5 ]) ws)%list).
Proof.
  intros Hiter Hans. rewrite (operation_function_iter env o account ws tr Hiter).
  apply (loop_trace_status env o account status ws tr Hans).
Qed.

(** X3: with every request answered, an operation function on k ids
    sleeps 5k seconds in all. *)
Theorem operation_pacing (env : environment) (o : operation)
  (account : Account) (ws : list pyval) (tr : trace) :
  py_iter (webinar_ids account) = Ok ws ->
  (forall t w, In w ws ->
     exists code, http env t (request_of env o account w) = Response code) ->
  slept (snd (operation_function env o account tr))
  = slept tr + 5 * Z.of_nat (length ws).
Proof.
  intros Hiter Hans. rewrite (operation_function_iter env o account ws tr Hiter).
  destruct (loop_trace env o account ws tr Hans) as (codes & Hlen & Hrun).
  rewrite Hrun. simpl. rewrite slept_app.
  rewrite (proj2 (flat_map_turns env o account ws codes Hlen)). reflexivity.
Qed.

(** X4: a request that raises ends the operation function there.  The
    exception is the function's outcome, the raising request is the last
    event (no status line, no sleep), and the ids after it get no
    request. *)
Theorem operation_stops_at_failure (env : environment) (o : operation)
  (account : Account) (pre : list pyval) (w : pyval) (post : list pyval)
  (e : exn) (tr : trace) :
  py_iter (webinar_ids account) = Ok (pre ++ w :: post)%list ->
  (forall t x, In x pre ->
     exists code, http env t (request_of env o account x) = Response code) ->
  (forall t, http env t (request_of env o account w) = Failure e) ->
  exists evs,
    operation_function env o account tr
    = (Raise e,
       (tr ++ evs ++ [ Stdout (progress_of env o w);
                       Patch (request_of env o account w) ])%list)
    /\ requests_of evs = map (request_of env o account) pre.
Proof.
  intros Hiter Hpre Hw. rewrite (operation_function_iter env o account _ tr Hiter).
  apply loop_stops; assumption.
Qed.

(** X5: on an account whose webinar ids are no list, mapping or string
    (null, a boolean, a number), an operation function raises a TypeError
    before it prints or requests anything. *)
Theorem operation_ids_not_iterable (env : environment) (o : operation)
  (account : Account) (tr : trace) :
  (forall ws, py_iter (webinar_ids account) <> Ok ws) ->
  operation_function env o account tr = (Raise TypeError, tr).
Proof.
  intros Hno. apply operation_function_not_iter.
  destruct (webinar_ids account) as [| | | |s|l|d]; simpl in *;
    try reflexivity; exfalso; eapply Hno; reflexivity.
Qed.

(** X6: webinar ids given as one string are taken character by character:
    with every request answered, the operation function makes one request
    per character of the string, each for the one-character id. *)
Theorem operation_string_ids (env : environment) (o : operation)
  (account : Account) (s : string) (tr : trace) :
  webinar_ids account = PStr s ->
  (forall t r, exists code, http env t r = Response code) ->
  exists evs,
    operation_function env o account tr = (Ok tt, (tr ++ evs)%list)
    /\ length (requests_of evs) = String.length s
    /\ requests_of evs
       = map (fun c => request_of env o account (PStr (String c EmptyString)))
             (list_ascii_of_string s).
Proof.
  intros Hids Hans.
  set (ws := map (fun c => PStr (String c EmptyString)) (list_ascii_of_string s)).
  assert (Hiter : py_iter (webinar_ids account) = Ok ws) by (rewrite Hids; reflexivity).
  rewrite (operation_function_iter env o account ws tr Hiter).
  destruct (loop_trace env o account ws tr) as (codes & Hlen & Hrun).
  { intros t w _. apply Hans. }
  eexists. split; [exact Hrun|].
  rewrite (proj1 (flat_map_turns env o account ws codes Hlen)).
  unfold ws. split.
  - rewrite !length_map. clear. induction s as [|c s IH]; simpl; [|rewrite IH]; reflexivity.
  - rewrite map_map. reflexivity.
Qed.

(** X7: the poll function, which the dispatcher never calls, has the loop
    of the others: every request it makes goes to the polls of one of the
    account's webinar ids, with the account's headers and the fixed poll
    payload (a single-choice question with the answers A and B). *)
Theorem create_poll_requests (env : environment) (account : Account) (tr : trace) :
  exists evs,
    snd (create_poll env account tr) = (tr ++ evs)%list
    /\ Forall (fun r =>
         req_json r
         = PDict [
             (PStr "title", PStr "Where are you attending this panel from?");
             (PStr "anonymous", PBool false);
             (PStr "poll_type", PInt 1);
             (PStr "questions", PList [
                PDict [ (PStr "name", PStr EmptyString);
                        (PStr "type", PStr "single");
                        (PStr "answers", PList [ PStr "A"; PStr "B" ]) ] ]) ]
         /\ req_headers r = headers env account
         /\ exists w,
              In w (ids_of account)
              /\ req_url r
                 = "https://api.zoom.us/v2/webinars/" ++ py_str env w ++ "/polls")
         (requests_of evs).
Proof.
  change (create_poll env) with (operation_function env CreatePoll).
  unfold ids_of.
  destruct (py_iter (webinar_ids account)) as [ws|e] eqn:Hiter.
  - rewrite (operation_function_iter env CreatePoll account ws tr Hiter).
    destruct (loop_outcome env CreatePoll account ws tr)
      as (evs & n & Hrun & Hreqs & _ & _).
    exists evs. split; [assumption|]. rewrite Hreqs.
    apply Forall_forall. intros r Hr. apply in_map_iff in Hr.
    destruct Hr as (w & <- & Hw). split; [reflexivity|]. split; [reflexivity|].
    exists w. split; [|reflexivity].
    rewrite <- (firstn_skipn n ws). apply in_or_app. left. assumption.
  - rewrite (operation_function_not_iter env CreatePoll account e tr Hiter).
    exists []. rewrite app_nil_r. split; [reflexivity | constructor].
Qed.

(** ** The configuration loader, record by record *)

(** X8: the loader stops at the first record it cannot use and gives no
    partial result.  When the records before it are usable, the exception
    is the one of that record (a TypeError for what is no mapping, a
    KeyError for [token] when that key is missing, whether or not
    [webinar-ids] is there, else a KeyError for [webinar-ids]), whatever
    comes after it. *)
Theorem from_yaml_text_first_offender (env : environment) (content : string)
  (v : pyval) (pre : list pyval) (r : pyval) (post : list pyval) (e : exn) :
  yaml_load env content = Ok v ->
  py_iter v = Ok (pre ++ r :: post)%list ->
  forallb record_ok pre = true ->
  offends r e ->
  from_yaml_text env content = Raise e.
Proof.
  intros Hload Hiter Hpre Hoff. unfold from_yaml_text.
  rewrite Hload. simpl. rewrite Hiter. simpl.
  apply from_yaml_loop_offender; assumption.
Qed.

(** X9: a configuration that is one account mapping instead of a sequence
    of them, or one non-empty string, is refused with a TypeError: the
    loop then visits the keys of the mapping or the characters of the
    string, and a string is no mapping. *)
Theorem from_yaml_text_not_a_sequence (env : environment) (content : string)
  (v : pyval) :
  yaml_load env content = Ok v ->
  (exists k x rest, v = PDict ((PStr k, x) :: rest))
  \/ (exists c s, v = PStr (String c s)) ->
  from_yaml_text env content = Raise TypeError.
Proof.
  intros Hload Hshape. unfold from_yaml_text. rewrite Hload. simpl.
  destruct Hshape as [(k & x & rest & ->) | (c & s & ->)]; reflexivity.
Qed.

(** ** Whole runs *)

Lemma choices_names (name : string) :
  In name choices -> exists o, name = name_of o.
Proof.
  intros [<- | [<- | [<- | [<- | []]]]].
  - exists UpdateRegistrationQuestion. reflexivity.
  - exists UpdateEmailSetting. reflexivity.
  - exists CreatePoll. reflexivity.
  - exists UpdateQaSetting. reflexivity.
Qed.

Lemma names_accepted (o : operation) : In (name_of o) choices.
Proof. destruct o; simpl; auto. Qed.

(** A run whose configuration loads goes on to the dispatch. *)
Lemma main_dispatch (env : environment) (o : operation)
  (argv_config : option string) (content : string) (accounts : list Account) :
  fs env (resolved argv_config) = Some (File content) ->
  from_yaml_text env content = Ok accounts ->
  main env (name_of o) argv_config []
  = for_each (dispatched env o) accounts (preamble o accounts).
Proof.
  intros Hfs Hload. unfold main. unfold bind at 1.
  rewrite (parse_args_accepted (name_of o) argv_config [] (names_accepted o)).
  fold (resolved argv_config). cbv beta iota. cbn [config op].
  unfold bind, path_exists, read_text, lift, ret, print, emit.
  rewrite Hfs. cbn [negb]. rewrite Hload.
  destruct o; reflexivity.
Qed.

(** A run whose configuration does not load ends with the loader's
    exception. *)
Lemma main_not_loaded (env : environment) (argv_op : string)
  (argv_config : option string) (content : string) (e : exn) :
  In argv_op choices ->
  fs env (resolved argv_config) = Some (File content) ->
  from_yaml_text env content = Raise e ->
  main env argv_op argv_config [] = (Raise e, []).
Proof.
  intros Hop Hfs Hload. unfold main. unfold bind at 1.
  rewrite (parse_args_accepted argv_op argv_config [] Hop).
  fold (resolved argv_config). cbv beta iota. cbn [config op].
  unfold bind, path_exists, read_text, lift, ret.
  rewrite Hfs. cbn [negb]. rewrite Hload. reflexivity.
Qed.

Lemma main_directory (env : environment) (argv_op : string)
  (argv_config : option string) :
  In argv_op choices ->
  fs env (resolved argv_config) = Some Directory ->
  main env argv_op argv_config [] = (Raise IsADirectoryError, []).
Proof.
  intros Hop Hfs. unfold main. unfold bind at 1.
  rewrite (parse_args_accepted argv_op argv_config [] Hop).
  fold (resolved argv_config). cbv beta iota. cbn [config op].
  unfold bind, path_exists, read_text, ret, raise.
  rewrite Hfs. reflexivity.
Qed.

Lemma main_refused (env : environment) (argv_op : string)
  (argv_config : option string) (tr : trace) :
  existsb (String.eqb argv_op) choices = false ->
  main env argv_op argv_config tr = (Raise (SystemExit 2), tr).
Proof.
  intros Hop. unfold main. unfold bind at 1. unfold parse_args.
  rewrite Hop. reflexivity.
Qed.

Lemma dispatched_function (env : environment) (o : operation) :
  o <> CreatePoll -> dispatched env o = operation_function env o.
Proof. destruct o; intros Ho; [reflexivity | reflexivity | reflexivity | contradiction]. Qed.

Lemma ids_of_iter (a : Account) :
  (exists ws, py_iter (webinar_ids a) = Ok ws) ->
  py_iter (webinar_ids a) = Ok (ids_of a).
Proof. intros (ws & Hws). unfold ids_of. rewrite Hws. reflexivity. Qed.

(** The accounts one after the other, with a server that answers. *)
Lemma accounts_answered (env : environment) (o : operation)
  (accounts : list Account) (tr : trace) :
  Forall (fun a => exists ws, py_iter (webinar_ids a) = Ok ws) accounts ->
  (forall t r, exists code, http env t r = Response code) ->
  exists evs,
    for_each (operation_function env o) accounts tr = (Ok tt, (tr ++ evs)%list)
    /\ requests_of evs
       = flat_map (fun a => map (request_of env o a) (ids_of a)) accounts
    /\ slept evs = 5 * Z.of_nat (length (flat_map ids_of accounts)).
Proof.
  intros Hiter Hans. revert tr.
  induction Hiter as [|a accounts Ha _ IH]; intros tr; cbn [for_each flat_map].
  - exists []. rewrite app_nil_r. repeat split.
  - unfold bind.
    rewrite (operation_function_iter env o a (ids_of a) tr (ids_of_iter a Ha)).
    destruct (loop_trace env o a (ids_of a) tr) as (codes & Hlen & Hrun).
    { intros t w _. apply Hans. }
    rewrite Hrun.
    set (turns := flat_map (fun p => turn_of env o a (fst p) (snd p))
                           (combine (ids_of a) codes)).
    destruct (IH (tr ++ turns)%list) as (evs & Hrest & Hreqs & Hslept).
    destruct (flat_map_turns env o a (ids_of a) codes Hlen) as (Hturns & Hnap).
    fold turns in Hturns, Hnap.
    exists (turns ++ evs)%list. split; [|split].
    + rewrite Hrest, <- app_assoc. reflexivity.
    + rewrite requests_of_app, Hturns, Hreqs. reflexivity.
    + rewrite slept_app, Hnap, Hslept, length_app, Nat2Z.inj_add.
      symmetry. apply Z.mul_add_distr_l.
Qed.

(** The accounts one after the other, whatever happens. *)
Lemma accounts_kept (env : environment) (o : operation)
  (accounts : list Account) (tr : trace) :
  exists evs,
    snd (for_each (operation_function env o) accounts tr) = (tr ++ evs)%list
    /\ Forall kept_event evs.
Proof.
  revert tr. induction accounts as [|a accounts IH]; intros tr; simpl.
  - exists []. rewrite app_nil_r. split; [reflexivity | constructor].
  - unfold bind.
    destruct (py_iter (webinar_ids a)) as [ws|e] eqn:Hiter.
    + rewrite (operation_function_iter env o a ws tr Hiter).
      destruct (loop_outcome env o a ws tr) as (evs & n & Hrun & _ & _ & Hkept).
      destruct (for_each (patch_step env (label_of o) (template_of o) (payload_of o) a)
                         ws tr) as [[[]|e] tr1]; simpl in Hrun; subst tr1.
      * destruct (IH (tr ++ evs)%list) as (evs' & Hrest & Hkept').
        exists (evs ++ evs')%list. split.
        -- rewrite Hrest, <- app_assoc. reflexivity.
        -- apply Forall_app. split; assumption.
      * exists evs. split; [reflexivity | assumption].
    + rewrite (operation_function_not_iter env o a e tr Hiter).
      exists []. rewrite app_nil_r. split; [reflexivity | constructor].
Qed.

(** X10: a whole run of one of the three update operations, on a
    configuration that loads to accounts with iterable webinar ids and
    with a server that answers: after the line with the number of accounts
    and the heading, the requests are those of the first account for its
    ids in order, then those of the second, and so on; the run returns
    (exit status 0) having slept five seconds per request. *)
Theorem main_run (env : environment) (o : operation)
  (argv_config : option string) (content : string) (accounts : list Account) :
  o <> CreatePoll ->
  fs env (resolved argv_config) = Some (File content) ->
  from_yaml_text env content = Ok accounts ->
  Forall (fun a => exists ws, py_iter (webinar_ids a) = Ok ws) accounts ->
  (forall t r, exists code, http env t r = Response code) ->
  exists evs,
    main env (name_of o) argv_config []
    = (Ok tt, (preamble o accounts ++ evs)%list)
    /\ requests_of evs
       = flat_map (fun a => map (request_of env o a) (ids_of a)) accounts
    /\ slept evs = 5 * Z.of_nat (length (flat_map ids_of accounts)).
Proof.
  intros Ho Hfs Hload Hiter Hans.
  rewrite (main_dispatch env o argv_config content accounts Hfs Hload).
  rewrite (dispatched_function env o Ho).
  apply accounts_answered; assumption.
Qed.

(** X11: when the configuration file is there and does not load into
    accounts, the run ends with the loader's exception before anything is
    printed, requested or slept, whatever the operation. *)
Theorem main_malformed_configuration (env : environment) (argv_op : string)
  (argv_config : option string) (content : string) (e : exn) :
  In argv_op choices ->
  fs env (resolved argv_config) = Some (File content) ->
  from_yaml_text env content = Raise e ->
  main env argv_op argv_config [] = (Raise e, []).
Proof. apply main_not_loaded. Qed.

(** X12: an operation name outside the four choices ends the run with
    exit status 2 before the configuration is looked for: nothing is read,
    printed or requested, also when the configuration file is missing. *)
Theorem main_unknown_operation (env : environment) (argv_op : string)
  (argv_config : option string) (tr : trace) :
  ~ In argv_op choices ->
  main env argv_op argv_config tr = (Raise (SystemExit 2), tr)
  /\ exit_status (fst (main env argv_op argv_config tr)) = 2.
Proof.
  intros Hop.
  assert (Hno : existsb (String.eqb argv_op) choices = false).
  { destruct (existsb (String.eqb argv_op) choices) eqn:Hex; [|reflexivity].
    exfalso. apply Hop. apply existsb_exists in Hex.
    destruct Hex as (name & Hin & Heq). apply String.eqb_eq in Heq.
    subst name. assumption. }
  rewrite (main_refused env argv_op argv_config tr Hno). split; reflexivity.
Qed.

(** X13: in every run, whatever the arguments, the files, the
    configuration and the server, each request goes to a URL below
    https://api.zoom.us/v2/webinars/ with a bearer authorization header
    and the JSON content type, and each sleep lasts five seconds. *)
Theorem main_keeps_events (env : environment) (argv_op : string)
  (argv_config : option string) :
  Forall kept_event (snd (main env argv_op argv_config [])).
Proof.
  destruct (existsb (String.eqb argv_op) choices) eqn:Hex.
  - assert (Hop : In argv_op choices).
    { apply existsb_exists in Hex. destruct Hex as (name & Hin & Heq).
      apply String.eqb_eq in Heq. subst name. assumption. }
    destruct (fs env (resolved argv_config)) as [[content|]|] eqn:Hfs.
    + destruct (from_yaml_text env content) as [accounts|e] eqn:Hload.
      * destruct (choices_names argv_op Hop) as (o & ->).
        rewrite (main_dispatch env o argv_config content accounts Hfs Hload).
        assert (Hpre : Forall kept_event (preamble o accounts)).
        { repeat constructor. }
        destruct o;
          try (match goal with
               | |- context [dispatched env ?o] =>
                   destruct (accounts_kept env o accounts (preamble o accounts))
                     as (evs & Hrun & Hkept);
                   change (dispatched env o) with (operation_function env o);
                   rewrite Hrun; apply Forall_app; split; assumption
               end).
        unfold dispatched. rewrite for_each_pass. exact Hpre.
      * rewrite (main_not_loaded env argv_op argv_config content e Hop Hfs Hload).
        constructor.
    + rewrite (main_directory env argv_op argv_config Hop Hfs). constructor.
    + rewrite (main_missing env argv_op argv_config
                 (mkNamespace argv_op (resolved argv_config))).
      * repeat constructor.
      * apply parse_args_accepted. assumption.
      * exact Hfs.
  - rewrite (main_refused env argv_op argv_config [] Hex). constructor.
Qed.

(** X14: a request that raises ends the whole run, not only the account
    it was made for.  With a server that is down, a run of an update
    operation on accounts the first of which has a webinar id makes that
    one request and ends with the exception: no further id and no further
    account is tried. *)
Theorem main_transport_failure (env : environment) (o : operation)
  (argv_config : option string) (content : string) (a : Account)
  (rest : list Account) (w : pyval) (ws : list pyval) (e : exn) :
  o <> CreatePoll ->
  fs env (resolved argv_config) = Some (File content) ->
  from_yaml_text env content = Ok (a :: rest) ->
  py_iter (webinar_ids a) = Ok (w :: ws) ->
  (forall t r, http env t r = Failure e) ->
  main env (name_of o) argv_config []
  = (Raise e,
     (preamble o (a :: rest)
      ++ [ Stdout (progress_of env o w); Patch (request_of env o a w) ])%list).
Proof.
  intros Ho Hfs Hload Hiter Hdown.
  rewrite (main_dispatch env o argv_config content (a :: rest) Hfs Hload).
  rewrite (dispatched_function env o Ho).
  cbn [for_each]. unfold bind.
  rewrite (operation_function_iter env o a (w :: ws) _ Hiter).
  cbn [for_each]. unfold bind.
  rewrite (step_failed env o a w e (preamble o (a :: rest)) (Hdown _ _)).
  reflexivity.
Qed.

(** ** Further runs on the test benches *)

Lemma operation_requests_prefix_witness :
  exists evs n,
    snd (operation_function bench_flaky UpdateEmailSetting
           (mkAccount (PStr "aaa") (PList [ PStr "111"; PStr "222"; PStr "333" ])) [])
    = ([] ++ evs)%list
    /\ requests_of evs
       = map (request_of bench_flaky UpdateEmailSetting
                (mkAccount (PStr "aaa") (PList [ PStr "111"; PStr "222"; PStr "333" ])))
             (firstn n [ PStr "111"; PStr "222"; PStr "333" ])
    /\ (fst (operation_function bench_flaky UpdateEmailSetting
               (mkAccount (PStr "aaa") (PList [ PStr "111"; PStr "222"; PStr "333" ])) [])
        = Ok tt -> n = length [ PStr "111"; PStr "222"; PStr "333" ]).
Proof.
  apply (operation_requests_prefix bench_flaky UpdateEmailSetting
           (mkAccount (PStr "aaa") (PList [ PStr "111"; PStr "222"; PStr "333" ]))
           [ PStr "111"; PStr "222"; PStr "333" ] []).
  reflexivity.
Defined.

Lemma operation_trace_witness :
  operation_function bench_mixed UpdateQaSetting
    (mkAccount (PStr "aaa") (PList [ PStr "111"; PStr "222" ])) []
  = (Ok tt,
     ([] ++ flat_map (fun w =>
                [ Stdout (progress_of bench_mixed UpdateQaSetting w);
                  Patch (request_of bench_mixed UpdateQaSetting
                           (mkAccount (PStr "aaa") (PList [ PStr "111"; PStr "222" ])) w);
                  Stdout (str_of_Z (match w with
                                    | PStr "111" => 204
                                    | _ => 404
                                    end) ++ nl);
                  Sleep 5 ]) [ PStr "111"; PStr "222" ])%list).
Proof.
  apply (operation_trace bench_mixed UpdateQaSetting
           (mkAccount (PStr "aaa") (PList [ PStr "111"; PStr "222" ]))
           [ PStr "111"; PStr "222" ]
           (fun w => match w with
                     | PStr "111" => 204
                     | _ => 404
                     end) []).
  - reflexivity.
  - intros t w [<- | [<- | []]]; reflexivity.
Defined.

Lemma operation_pacing_witness :
  slept (snd (operation_function (bench 204) UpdateRegistrationQuestion
                (mkAccount (PStr "aaa") (PList [ PStr "111"; PStr "222" ])) []))
  = slept [] + 5 * Z.of_nat 2.
Proof.
  apply (operation_pacing (bench 204) UpdateRegistrationQuestion
           (mkAccount (PStr "aaa") (PList [ PStr "111"; PStr "222" ]))
           [ PStr "111"; PStr "222" ] []).
  - reflexivity.
  - intros t w _. exists 204. reflexivity.
Defined.

Lemma operation_stops_at_failure_witness :
  exists evs,
    operation_function bench_flaky UpdateEmailSetting
      (mkAccount (PStr "aaa") (PList [ PStr "111"; PStr "222"; PStr "333" ])) []
    = (Raise (RequestException "timed out"),
       ([] ++ evs
        ++ [ Stdout (progress_of bench_flaky UpdateEmailSetting (PStr "222"));
             Patch (request_of bench_flaky UpdateEmailSetting
                      (mkAccount (PStr "aaa")
                         (PList [ PStr "111"; PStr "222"; PStr "333" ]))
                      (PStr "222")) ])%list)
    /\ requests_of evs
       = map (request_of bench_flaky UpdateEmailSetting
                (mkAccount (PStr "aaa") (PList [ PStr "111"; PStr "222"; PStr "333" ])))
             [ PStr "111" ].
Proof.
  apply (operation_stops_at_failure bench_flaky UpdateEmailSetting
           (mkAccount (PStr "aaa") (PList [ PStr "111"; PStr "222"; PStr "333" ]))
           [ PStr "111" ] (PStr "222") [ PStr "333" ]
           (RequestException "timed out") []).
  - reflexivity.
  - intros t x [<- | []]. exists 204. reflexivity.
  - intros t. reflexivity.
Defined.

Lemma operation_ids_not_iterable_witness :
  operation_function (bench 204) UpdateEmailSetting
    (mkAccount (PStr "aaa") (PInt 12345)) []
  = (Raise TypeError, []).
Proof.
  apply (operation_ids_not_iterable (bench 204) UpdateEmailSetting
           (mkAccount (PStr "aaa") (PInt 12345)) []).
  intros ws. discriminate.
Defined.

Lemma operation_string_ids_witness :
  exists evs,
    operation_function (bench 204) UpdateEmailSetting
      (mkAccount (PStr "aaa") (PStr "987")) []
    = (Ok tt, ([] ++ evs)%list)
    /\ length (requests_of evs) = String.length "987"
    /\ requests_of evs
       = map (fun c => request_of (bench 204) UpdateEmailSetting
                         (mkAccount (PStr "aaa") (PStr "987"))
                         (PStr (String c EmptyString)))
             (list_ascii_of_string "987").
Proof.
  apply (operation_string_ids (bench 204) UpdateEmailSetting
           (mkAccount (PStr "aaa") (PStr "987")) "987" []).
  - reflexivity.
  - intros t r. exists 204. reflexivity.
Defined.

Lemma from_yaml_text_first_offender_witness :
  from_yaml_text bench_more three_records_text = Raise (KeyError (PStr "token")).
Proof.
  apply (from_yaml_text_first_offender bench_more three_records_text
           three_records_doc
           [ PDict [ (PStr "token", PStr "aaa");
                     (PStr "webinar-ids", PList [ PStr "111" ]) ] ]
           (PDict [ (PStr "webinar-ids", PList [ PStr "222" ]) ])
           [ PDict [ (PStr "token", PStr "ccc") ] ]).
  - reflexivity.
  - reflexivity.
  - reflexivity.
  - apply offends_no_token. reflexivity.
Defined.

Lemma from_yaml_text_not_a_sequence_witness :
  from_yaml_text bench_more "{token: aaa, webinar-ids: ['111']}" = Raise TypeError.
Proof.
  apply (from_yaml_text_not_a_sequence bench_more
           "{token: aaa, webinar-ids: ['111']}"
           (PDict [ (PStr "token", PStr "aaa");
                    (PStr "webinar-ids", PList [ PStr "111" ]) ])).
  - reflexivity.
  - left. exists "token", (PStr "aaa"), [ (PStr "webinar-ids", PList [ PStr "111" ]) ].
    reflexivity.
Defined.

Lemma main_run_witness :
  exists evs,
    main (bench 204) (name_of UpdateEmailSetting) None []
    = (Ok tt,
       (preamble UpdateEmailSetting
          [ mkAccount (PStr "aaa") (PList [ PStr "111"; PStr "222" ]);
            mkAccount (PStr "bbb") (PList [ PStr "333" ]) ]
        ++ evs)%list)
    /\ requests_of evs
       = flat_map (fun a => map (request_of (bench 204) UpdateEmailSetting a) (ids_of a))
           [ mkAccount (PStr "aaa") (PList [ PStr "111"; PStr "222" ]);
             mkAccount (PStr "bbb") (PList [ PStr "333" ]) ]
    /\ slept evs
       = 5 * Z.of_nat (length (flat_map ids_of
           [ mkAccount (PStr "aaa") (PList [ PStr "111"; PStr "222" ]);
             mkAccount (PStr "bbb") (PList [ PStr "333" ]) ])).
Proof.
  apply (main_run (bench 204) UpdateEmailSetting None two_accounts_text).
  - discriminate.
  - reflexivity.
  - reflexivity.
  - repeat constructor; eexists; reflexivity.
  - intros t r. exists 204. reflexivity.
Defined.

Lemma main_malformed_configuration_witness :
  main (bench 204) "update-qa-setting" (Some "empty.yaml") [] = (Raise TypeError, []).
Proof.
  apply (main_malformed_configuration (bench 204) "update-qa-setting"
           (Some "empty.yaml") EmptyString TypeError).
  - simpl. auto.
  - reflexivity.
  - reflexivity.
Defined.

Lemma main_unknown_operation_witness :
  main (bench 204) "delete-webinar" (Some "nowhere.yaml") []
  = (Raise (SystemExit 2), [])
  /\ exit_status (fst (main (bench 204) "delete-webinar" (Some "nowhere.yaml") [])) = 2.
Proof.
  apply (main_unknown_operation (bench 204) "delete-webinar" (Some "nowhere.yaml") []).
  intros [H | [H | [H | [H | []]]]]; discriminate H.
Defined.

Lemma main_transport_failure_witness :
  main bench_offline (name_of UpdateQaSetting) None []
  = (Raise (RequestException "connection refused"),
     (preamble UpdateQaSetting
        [ mkAccount (PStr "aaa") (PList [ PStr "111"; PStr "222" ]);
          mkAccount (PStr "bbb") (PList [ PStr "333" ]) ]
      ++ [ Stdout (progress_of bench_offline UpdateQaSetting (PStr "111"));
           Patch (request_of bench_offline UpdateQaSetting
                    (mkAccount (PStr "aaa") (PList [ PStr "111"; PStr "222" ]))
                    (PStr "111")) ])%list).
Proof.
  apply (main_transport_failure bench_offline UpdateQaSetting None two_accounts_text
           (mkAccount (PStr "aaa") (PList [ PStr "111"; PStr "222" ]))
           [ mkAccount (PStr "bbb") (PList [ PStr "333" ]) ]
           (PStr "111") [ PStr "222" ]
           (RequestException "connection refused")).
  - discriminate.
  - reflexivity.
  - reflexivity.
  - reflexivity.
  - intros t r. reflexivity.
Defined.

(** ** What the loader keeps, and the pace of a run *)

Lemma from_yaml_loop_records (accounts done : list Account) :
  from_yaml_loop (map record_of accounts) done = Ok (done ++ accounts)%list.
Proof.
  revert done. induction accounts as [|a accounts IH]; intros done; simpl.
  - rewrite app_nil_r. reflexivity.
  - rewrite IH, <- app_assoc. destruct a. reflexivity.
Qed.

(** X15: the loader takes the two field values as they are.  From a text
    that loads to the records of a list of Accounts, whatever their tokens
    and webinar ids are (strings or not), it returns that very list. *)
Theorem from_yaml_text_round_trip (env : environment) (content : string)
  (accounts : list Account) :
  yaml_load env content = Ok (PList (map record_of accounts)) ->
  from_yaml_text env content = Ok accounts.
Proof.
  intros Hload. unfold from_yaml_text. rewrite Hload. simpl.
  apply (from_yaml_loop_records accounts []).
Qed.

Lemma spaced_app (a b : trace) (rested : bool) :
  spaced_from rested (a ++ b)%list
  = spaced_from rested a && spaced_from (rested_after rested a) b.
Proof.
  revert rested. induction a as [|e a IH]; intros rested; simpl.
  - reflexivity.
  - destruct e; rewrite IH; try reflexivity. apply andb_assoc.
Qed.

Lemma rested_app (a b : trace) (rested : bool) :
  rested_after rested (a ++ b)%list = rested_after (rested_after rested a) b.
Proof.
  revert rested. induction a as [|e a IH]; intros rested; simpl.
  - reflexivity.
  - destruct e; apply IH.
Qed.

Lemma loop_spaced (env : environment) (o : operation) (account : Account)
  (ws : list pyval) (tr : trace) :
  exists evs,
    snd (for_each (patch_step env (label_of o) (template_of o) (payload_of o) account)
                  ws tr)
    = (tr ++ evs)%list
    /\ spaced_from true evs = true
    /\ (fst (for_each (patch_step env (label_of o) (template_of o) (payload_of o)
                         account) ws tr) = Ok tt ->
        rested_after true evs = true).
Proof.
  revert tr. induction ws as [|w ws IH]; intros tr; cbn [for_each].
  - exists []. rewrite app_nil_r. repeat split.
  - unfold bind.
    destruct (http env (tr ++ [Stdout (progress_of env o w)])%list
                   (request_of env o account w)) as [code|e] eqn:Hreply.
    + rewrite (step_answered env o account w code tr Hreply).
      destruct (IH (tr ++ turn_of env o account w code)%list)
        as (evs & Hrun & Hspaced & Hrested).
      exists (turn_of env o account w code ++ evs)%list.
      split; [rewrite Hrun, <- app_assoc; reflexivity|].
      split.
      * rewrite spaced_app. simpl. exact Hspaced.
      * intros Hok. rewrite rested_app. simpl. apply Hrested. exact Hok.
    + rewrite (step_failed env o account w e tr Hreply).
      exists [Stdout (progress_of env o w); Patch (request_of env o account w)].
      split; [reflexivity|]. split; [reflexivity | discriminate].
Qed.

Lemma accounts_spaced (env : environment) (o : operation)
  (accounts : list Account) (tr : trace) :
  exists evs,
    snd (for_each (operation_function env o) accounts tr) = (tr ++ evs)%list
    /\ spaced_from true evs = true.
Proof.
  revert tr. induction accounts as [|a accounts IH]; intros tr; cbn [for_each].
  - exists []. rewrite app_nil_r. split; reflexivity.
  - unfold bind.
    destruct (py_iter (webinar_ids a)) as [ws|e] eqn:Hiter.
    + rewrite (operation_function_iter env o a ws tr Hiter).
      destruct (loop_spaced env o a ws tr) as (evs & Hrun & Hspaced & Hrested).
      destruct (for_each (patch_step env (label_of o) (template_of o) (payload_of o) a)
                         ws tr) as [[[]|e] tr1]; simpl in Hrun; subst tr1.
      * destruct (IH (tr ++ evs)%list) as (evs' & Hrest & Hspaced').
        exists (evs ++ evs')%list. split.
        -- rewrite Hrest, <- app_assoc. reflexivity.
        -- rewrite spaced_app, Hspaced, (Hrested eq_refl). exact Hspaced'.
      * exists evs. split; [reflexivity | assumption].
    + rewrite (operation_function_not_iter env o a e tr Hiter).
      exists []. rewrite app_nil_r. split; reflexivity.
Qed.

(** X16: no run makes two requests without sleeping five seconds in
    between, whatever the arguments, the configuration and the server
    are, also from the last webinar of one account to the first of the
    next. *)
Theorem main_spaces_requests (env : environment) (argv_op : string)
  (argv_config : option string) :
  spaced_from true (snd (main env argv_op argv_config [])) = true.
Proof.
  destruct (existsb (String.eqb argv_op) choices) eqn:Hex.
  - assert (Hop : In argv_op choices).
    { apply existsb_exists in Hex. destruct Hex as (name & Hin & Heq).
      apply String.eqb_eq in Heq. subst name. assumption. }
    destruct (fs env (resolved argv_config)) as [[content|]|] eqn:Hfs.
    + destruct (from_yaml_text env content) as [accounts|e] eqn:Hload.
      * destruct (choices_names argv_op Hop) as (o & ->).
        rewrite (main_dispatch env o argv_config content accounts Hfs Hload).
        destruct o;
          try (match goal with
               | |- context [dispatched env ?o] =>
                   destruct (accounts_spaced env o accounts (preamble o accounts))
                     as (evs & Hrun & Hspaced);
                   change (dispatched env o) with (operation_function env o);
                   rewrite Hrun, spaced_app; exact Hspaced
               end).
        unfold dispatched. rewrite for_each_pass. reflexivity.
      * rewrite (main_not_loaded env argv_op argv_config content e Hop Hfs Hload).
        reflexivity.
    + rewrite (main_directory env argv_op argv_config Hop Hfs). reflexivity.
    + rewrite (main_missing env argv_op argv_config
                 (mkNamespace argv_op (resolved argv_config))).
      * reflexivity.
      * apply parse_args_accepted. assumption.
      * exact Hfs.
  - rewrite (main_refused env argv_op argv_config [] Hex). reflexivity.
Qed.

Lemma from_yaml_text_round_trip_witness :
  from_yaml_text (bench 204) two_accounts_text
  = Ok [ mkAccount (PStr "aaa") (PList [ PStr "111"; PStr "222" ]);
         mkAccount (PStr "bbb") (PList [ PStr "333" ]) ].
Proof.
  apply (from_yaml_text_round_trip (bench 204) two_accounts_text
           [ mkAccount (PStr "aaa") (PList [ PStr "111"; PStr "222" ]);
             mkAccount (PStr "bbb") (PList [ PStr "333" ]) ]).
  reflexivity.
Defined.

(** Two requests with only a progress line between them are not spaced. *)
Example unspaced_requests (r r' : request) :
  spaced_from true [ Patch r; Stdout "next"; Patch r' ] = false
  /\ spaced_from true [ Patch r; Sleep 5; Stdout "next"; Patch r' ] = true.
Proof. split; reflexivity. Qed.
